(** * Health reporter of the agent (lib/health-reporter.js)

    A shallow embedding of the [HealthReporter] class, of its helper
    [writeStatus] and of the platform calls they make, followed by the
    properties of the health reporting subsystem.

    Conventions of the embedding:
    - JavaScript strings are [string]s (the status codes, messages and log
      lines of the module are ASCII);
    - [undefined] is [None];
    - a JavaScript Number that holds an integer is the integer it denotes,
      rounded to 53 significant bits where the platform rounds;
    - the effects of the class (logging, timers, the clock, file writes) are
      threaded through a record [World] by a state monad [M]. *)

From Stdlib Require Import ZArith String Ascii List Lia Bool.
From stdpp Require Import base option gmap strings list pretty.

Local Open Scope Z_scope.

(** ** JavaScript numbers *)

Module JS.

(** The Numbers this module computes with are integers or NaN. *)
Inductive Number : Type :=
  | NaN
  | Fin (z : Z).

#[global] Instance Number_eq_dec : EqDecision Number.
Proof. solve_decision. Defined.

(** Round-to-nearest, ties-to-even, to a 53-bit significand: the value of
    the double nearest to the non-negative integer [a]. *)
Definition round53_pos (a : Z) : Z :=
  if a <? 2 ^ 53 then a
  else
    let e := Z.log2 a - 52 in
    let q := a / 2 ^ e in
    let r := a mod 2 ^ e in
    let half := 2 ^ (e - 1) in
    let q' := if (half <? r) || ((r =? half) && Z.odd q) then q + 1 else q in
    q' * 2 ^ e.

Definition round53 (z : Z) : Z := Z.sgn z * round53_pos (Z.abs z).

(** [Number(b)] for a BigInt [b >= 0]. *)
Definition Number_of_bigint (b : N) : Number := Fin (round53 (Z.of_N b)).

(** [x * y] on Numbers: NaN is absorbing, the product of two integers is
    rounded to the nearest double (products beyond the range of the doubles
    are not modelled). *)
Definition Number_mul (x y : Number) : Number :=
  match x, y with
  | Fin a, Fin b => Fin (round53 (a * b))
  | _, _ => NaN
  end.

(** [x <= y]; every comparison with NaN is false. *)
Definition Number_le (x y : Number) : Prop :=
  match x, y with
  | Fin a, Fin b => a <= b
  | _, _ => False
  end.

(** *** parseInt(string, 10) *)

(** The ASCII white space and line terminators. *)
Definition is_white_space (c : ascii) : bool :=
  let n := nat_of_ascii c in
  ((9 <=? n) && (n <=? 13))%nat || (n =? 32)%nat.

Definition digit_value (c : ascii) : option Z :=
  let n := Z.of_nat (nat_of_ascii c) in
  if (48 <=? n) && (n <=? 57) then Some (n - 48) else None.

Fixpoint trim_start (s : string) : string :=
  match s with
  | String c s' => if is_white_space c then trim_start s' else s
  | EmptyString => EmptyString
  end.

(** The longest prefix of decimal digits, read most significant first;
    [acc] is [None] as long as no digit was seen. *)
Fixpoint parse_digits (acc : option Z) (s : string) : option Z :=
  match s with
  | String c s' =>
      match digit_value c with
      | Some d => parse_digits (Some (10 * default 0 acc + d)) s'
      | None => acc
      end
  | EmptyString => acc
  end.

(** [parseInt(input, 10)]: white space is skipped, then a sign and the
    longest run of decimal digits are read; without a digit the result is
    NaN. *)
Definition parseInt (input : string) : Number :=
  let s := trim_start input in
  let '(sign, s) :=
    match s with
    | String "-" s' => (-1, s')
    | String "+" s' => (1, s')
    | _ => (1, s)
    end in
  match parse_digits None s with
  | Some n => Fin (round53 (sign * n))
  | None => NaN
  end.

(** [s.replaceAll(c, r)] for a one-character pattern [c]. *)
Fixpoint replaceAll (c : ascii) (r : string) (s : string) : string :=
  match s with
  | String a s' =>
      if Ascii.eqb a c then r +:+ replaceAll c r s'
      else String a (replaceAll c r s')
  | EmptyString => EmptyString
  end.

(** [lines.join(sep)] *)
Fixpoint join (sep : string) (lines : list string) : string :=
  match lines with
  | [] => EmptyString
  | [l] => l
  | l :: ls => l +:+ sep +:+ join sep ls
  end.

End JS.

Import JS.

(** ** The platform

    What the module gets from Node.js and cannot compute itself: the
    monotonic clock, the random UUID source, [path.join] and the conversion
    of a Number to a string in a template literal. *)

Class Platform := {
  (** the [n]-th value returned by [process.hrtime.bigint()] *)
  hrtime : nat → N;
  (** the [n]-th value returned by [crypto.randomUUID()] *)
  randomUUID : nat → string;
  (** [path.join(dir, name)] *)
  path_join : string → string → string;
  (** [`${x}`] for a Number [x] *)
  Number_toString : Number → string;
}.

(** Log levels of the logger. *)
Inductive Level : Type := info | debug | warn | error.

#[global] Instance Level_eq_dec : EqDecision Level.
Proof. solve_decision. Defined.

(** The two completion callbacks handed to [fs.writeFile]. *)
Inductive Callback : Type :=
  | healthCheck_callback
  | stop_callback.

(** One call [fs.writeFile(file, data, { encoding: 'utf8' }, callback)]. *)
Record FileWrite := {
  file : option string;
  data : string;
  encoding : string;
  callback : Callback;
}.

(** Everything outside the reporter that its methods read or change. *)
Record World := {
  hr_reads : nat;               (* clock readings taken so far *)
  uuid_draws : nat;             (* UUIDs drawn so far *)
  next_timer : nat;             (* next timer handle *)
  timers : gmap nat Number;     (* running interval timers and their delay *)
  unrefd : gset nat;            (* timers that do not keep the process alive *)
  logs : list (Level * string); (* log calls, oldest first *)
  writes : list FileWrite;      (* fs.writeFile calls, oldest first *)
}.

Definition world0 : World :=
  {| hr_reads := 0; uuid_draws := 0; next_timer := 0; timers := ∅;
     unrefd := ∅; logs := []; writes := [] |}.

(** ** The effect monad *)

Definition M (A : Type) : Type := World → A * World.

#[global] Instance M_ret : MRet M := λ A a w, (a, w).
#[global] Instance M_bind : MBind M :=
  λ A B f m w, let r := m w in f r.1 r.2.

Section platform.
Context `{Platform}.

(** [logger[level](msg)] *)
Definition log (level : Level) (msg : string) : M unit := λ w,
  (tt, {| hr_reads := hr_reads w; uuid_draws := uuid_draws w;
          next_timer := next_timer w; timers := timers w; unrefd := unrefd w;
          logs := logs w ++ [(level, msg)]; writes := writes w |}).

(** [process.hrtime.bigint()] *)
Definition process_hrtime_bigint : M N := λ w,
  (hrtime (hr_reads w),
   {| hr_reads := S (hr_reads w); uuid_draws := uuid_draws w;
      next_timer := next_timer w; timers := timers w; unrefd := unrefd w;
      logs := logs w; writes := writes w |}).

(** [crypto.randomUUID()] *)
Definition crypto_randomUUID : M string := λ w,
  (randomUUID (uuid_draws w),
   {| hr_reads := hr_reads w; uuid_draws := S (uuid_draws w);
      next_timer := next_timer w; timers := timers w; unrefd := unrefd w;
      logs := logs w; writes := writes w |}).

(** [setInterval(fn, delay)]: starts a timer, returns its handle. *)
Definition setInterval (delay : Number) : M nat := λ w,
  (next_timer w,
   {| hr_reads := hr_reads w; uuid_draws := uuid_draws w;
      next_timer := S (next_timer w);
      timers := <[next_timer w := delay]> (timers w); unrefd := unrefd w;
      logs := logs w; writes := writes w |}).

(** [timer.unref()] *)
Definition unref (timer : nat) : M unit := λ w,
  (tt, {| hr_reads := hr_reads w; uuid_draws := uuid_draws w;
          next_timer := next_timer w; timers := timers w;
          unrefd := {[timer]} ∪ unrefd w;
          logs := logs w; writes := writes w |}).

(** [clearInterval(timer)]: nothing to do for [undefined]. *)
Definition clearInterval (timer : option nat) : M unit := λ w,
  match timer with
  | Some t =>
      (tt, {| hr_reads := hr_reads w; uuid_draws := uuid_draws w;
              next_timer := next_timer w; timers := delete t (timers w);
              unrefd := unrefd w; logs := logs w; writes := writes w |})
  | None => (tt, w)
  end.

(** [fs.writeFile(file, data, { encoding: 'utf8' }, callback)]: the call is
    recorded; what the file system does with it is not part of the module. *)
Definition fs_writeFile (f : option string) (d : string) (cb : Callback)
  : M unit := λ w,
  (tt, {| hr_reads := hr_reads w; uuid_draws := uuid_draws w;
          next_timer := next_timer w; timers := timers w; unrefd := unrefd w;
          logs := logs w;
          writes := writes w ++
            [{| file := f; data := d; encoding := "utf8"; callback := cb |}] |}).

(** ** The status codes (lib/health-reporter.js, lines 14-27) *)

Definition VALID_CODES : gmap string string :=
  list_to_map [
    ("NR-APM-000", "Healthy.");
    ("NR-APM-001", "Invalid license key.");
    ("NR-APM-002", "License key missing.");
    ("NR-APM-003", "Forced disconnect received from New Relic.");
    ("NR-APM-004", "HTTP error communicating with New Relic.");
    ("NR-APM-005", "Missing application name in agent configuration.");
    ("NR-APM-006", "The maximum number of configured app names is exceeded.");
    ("NR-APM-007", "HTTP proxy is misconfigured.");
    ("NR-APM-008", "Agent is disabled via configuration.");
    ("NR-APM-009", "Failed to connect to the New Relic data collector.");
    ("NR-APM-010", "Agent config could not be parsed.");
    ("NR-APM-099", "Agent has shutdown.")
  ].

(** [VALID_CODES.has(status)] *)
Definition VALID_CODES_has (status : string) : bool :=
  bool_decide (is_Some (VALID_CODES !! status)).

Definition STATUS_HEALTHY : string := "NR-APM-000".
Definition STATUS_INVALID_LICENSE_KEY : string := "NR-APM-001".
Definition STATUS_LICENSE_KEY_MISSING : string := "NR-APM-002".
Definition STATUS_FORCED_DISCONNECT : string := "NR-APM-003".
Definition STATUS_BACKEND_ERROR : string := "NR-APM-004".
Definition STATUS_MISSING_APP_NAME : string := "NR-APM-005".
Definition STATUS_MAXIMUM_APP_NAMES_EXCEEDED : string := "NR-APM-006".
Definition STATUS_HTTP_PROXY_MISCONFIGURED : string := "NR-APM-007".
Definition STATUS_AGENT_DISABLED : string := "NR-APM-008".
Definition STATUS_CONNECT_ERROR : string := "NR-APM-009".
Definition STATUS_CONFIG_PARSE_FAILURE : string := "NR-APM-010".
Definition STATUS_AGENT_SHUTDOWN : string := "NR-APM-099".

(** ** Template literals *)

(** [`${x}`] for a string that may be [undefined]. *)
Definition string_or_undefined (x : option string) : string :=
  default "undefined" x.

(** [`${x}`] for a Number that may be [undefined]. *)
Definition number_or_undefined (x : option Number) : string :=
  match x with
  | Some n => Number_toString n
  | None => "undefined"
  end.

(** [`${b}`] for a boolean. *)
Definition boolean_toString (b : bool) : string :=
  if b then "true" else "false".

(** ** writeStatus (lines 29-39) *)

(** The array of lines that [writeStatus] joins. *)
Definition status_lines (healthy : bool) (msg : option string) (code : string)
    (startTime : option Number) (currentTime : Number) : list string :=
  [ "healthy: " +:+ boolean_toString healthy;
    "status: '" +:+ string_or_undefined msg +:+ "'";
    "last_error: " +:+ code;
    "start_time_unix_nano: " +:+ number_or_undefined startTime;
    "status_time_unix_nano: " +:+ Number_toString currentTime ].

Definition newline : string := String (ascii_of_nat 10) EmptyString.

Definition writeStatus (f : option string) (healthy : bool) (code : string)
    (msg : option string) (startTime : option Number) (cb : Callback)
  : M unit :=
  now ← process_hrtime_bigint;
  let currentTime := Number_of_bigint now in
  let yaml := join newline (status_lines healthy msg code startTime currentTime) in
  fs_writeFile f yaml cb.

End platform.

(** ** The class HealthReporter (lines 41-166) *)

(** The three environment variables read by the constructor. *)
Record ProcessEnv := {
  NEW_RELIC_SUPERAGENT_FLEET_ID : option string;
  NEW_RELIC_SUPERAGENT_HEALTH_DELIVERY_LOCATION : option string;
  NEW_RELIC_SUPERAGENT_HEALTH_FREQUENCY : option string;
}.

(** The private fields of an instance. *)
Record HealthReporter := {
  status : string;
  interval : option nat;
  destFile : option string;
  startTime : option Number;
}.

(** [!x] for a string that may be [undefined]: the empty string and
    [undefined] are the falsy ones. *)
Definition falsy (x : option string) : bool :=
  match x with
  | None => true
  | Some s => bool_decide (s = "")
  end.

(** [this.#status = s] *)
Definition set_status (s : string) (this : HealthReporter) : HealthReporter :=
  {| status := s; interval := interval this; destFile := destFile this;
     startTime := startTime this |}.

Section reporter.
Context `{Platform}.

(** The instance as the field initialisers leave it (lines 42-46). *)
Definition fresh : HealthReporter :=
  {| status := STATUS_HEALTHY; interval := None; destFile := None;
     startTime := None |}.

(** The name of the health file (line 88). *)
Definition health_file_name (uuid : string) : string :=
  "health-" +:+ uuid +:+ ".yaml".

(** [new HealthReporter()] (lines 61-99) *)
Definition constructor (env : ProcessEnv) : M HealthReporter :=
  let fleetId := NEW_RELIC_SUPERAGENT_FLEET_ID env in
  let outDir := NEW_RELIC_SUPERAGENT_HEALTH_DELIVERY_LOCATION env in
  let checkInterval := NEW_RELIC_SUPERAGENT_HEALTH_FREQUENCY env in
  if falsy fleetId then
    _ ← log info "new relic control not present, skipping health reporting";
    mret fresh
  else
    match outDir with
    | None =>
        _ ← log error
              "health check output directory not provided, skipping health reporting";
        mret fresh
    | Some outDir =>
        checkInterval ←
          match checkInterval with
          | None =>
              _ ← log debug
                    "health check interval not available, using default 5 seconds";
              mret (Fin 5000)
          | Some s => mret (Number_mul (parseInt s) (Fin 1000))
          end;
        now ← process_hrtime_bigint;
        let startTime := Number_of_bigint now in
        random ← crypto_randomUUID;
        let uuid := replaceAll "-" "" random in
        let destFile := path_join outDir (health_file_name uuid) in
        _ ← log info
              ("new relic control is present, writing health on interval "
               +:+ Number_toString checkInterval +:+ " milliseconds to "
               +:+ destFile);
        timer ← setInterval checkInterval;
        _ ← unref timer;
        _ ← log info "health reporter initialized";
        mret {| status := STATUS_HEALTHY; interval := Some timer;
                destFile := Some destFile; startTime := Some startTime |}
    end.

(** [#healthCheck()] (lines 101-115), the body of a timer tick. *)
Definition healthCheck (this : HealthReporter) : M HealthReporter :=
  let healthy := bool_decide (status this = STATUS_HEALTHY) in
  _ ← writeStatus (destFile this) healthy (status this)
        (VALID_CODES !! status this) (startTime this) healthCheck_callback;
  mret this.

(** [setStatus(status)] (lines 117-135) *)
Definition setStatus (s : string) (this : HealthReporter) : M HealthReporter :=
  if negb (VALID_CODES_has s) then
    _ ← log warn ("invalid health reporter status provided: " +:+ s);
    mret this
  else if bool_decide (s = STATUS_AGENT_SHUTDOWN)
          && negb (bool_decide (status this = STATUS_HEALTHY)) then
    _ ← log info
          ("not setting shutdown health status due to current status code: "
           +:+ status this);
    mret this
  else
    mret (set_status s this).

(** [stop()] (lines 137-165) *)
Definition stop (this : HealthReporter) : M HealthReporter :=
  _ ← clearInterval (interval this);
  let healthy := bool_decide (status this = STATUS_HEALTHY) in
  let code := status this in
  let msg := VALID_CODES !! code in
  let '(code, msg) :=
    if healthy then (STATUS_AGENT_SHUTDOWN, VALID_CODES !! STATUS_AGENT_SHUTDOWN)
    else (code, msg) in
  _ ← writeStatus (destFile this) healthy code msg (startTime this)
        stop_callback;
  mret this.

(** The completion callbacks (lines 109-113 and 157-163): [err] is the
    message of the error the write ended with, if it failed. *)
Definition run_callback (cb : Callback) (err : option string) : M unit :=
  match err with
  | Some message =>
      match cb with
      | healthCheck_callback =>
          log error ("error when writing out health status: " +:+ message)
      | stop_callback =>
          log error
            ("error when writing out health status during shutdown: "
             +:+ message)
      end
  | None => mret tt
  end.

(** ** Sessions: what happens to an instance after its construction *)

Inductive Call : Type :=
  | Tick                          (* the timer fires [#healthCheck] *)
  | SetStatus (s : string)        (* a caller runs [setStatus(s)] *)
  | Stop.                         (* a caller runs [stop()] *)

Definition call (c : Call) (this : HealthReporter) : M HealthReporter :=
  match c with
  | Tick => healthCheck this
  | SetStatus s => setStatus s this
  | Stop => stop this
  end.

Fixpoint run (cs : list Call) (this : HealthReporter) : M HealthReporter :=
  match cs with
  | [] => mret this
  | c :: cs' => this' ← call c this; run cs' this'
  end.

Definition session (env : ProcessEnv) (cs : list Call) : M HealthReporter :=
  this ← constructor env; run cs this.

End reporter.

(** ** A concrete platform

    The platform of the unit tests: a clock that counts 1, 2, 3, ..., a fixed
    UUID, POSIX-style joining of a directory and a name, decimal Numbers. *)

Definition decimal (x : Number) : string :=
  match x with
  | NaN => "NaN"
  | Fin z => pretty z
  end.

Definition test_platform : Platform :=
  {| hrtime := λ n, N.of_nat (S n);
     randomUUID := λ _, "123e4567-e89b-42d3-a456-426614174000";
     path_join := λ dir name, dir +:+ "/" +:+ name;
     Number_toString := decimal |}.

Definition test_env : ProcessEnv :=
  {| NEW_RELIC_SUPERAGENT_FLEET_ID := Some "42";
     NEW_RELIC_SUPERAGENT_HEALTH_DELIVERY_LOCATION := Some "/tmp";
     NEW_RELIC_SUPERAGENT_HEALTH_FREQUENCY := Some "1" |}.

(** The invariant of the status register: it holds a code of the table. *)
Definition valid (this : HealthReporter) : Prop :=
  is_Some (VALID_CODES !! status this).

(** ** Shapes of names *)

(** The character class [[0-9a-f]]. *)
Definition is_lower_hex (c : ascii) : bool :=
  let n := nat_of_ascii c in
  (((48 <=? n) && (n <=? 57)) || ((97 <=? n) && (n <=? 102)))%nat.

(** Reads exactly [n] characters of [[0-9a-f]] off the front of [s]. *)
Fixpoint take_hex (n : nat) (s : string) : option string :=
  match n with
  | O => Some s
  | S n' =>
      match s with
      | String c s' => if is_lower_hex c then take_hex n' s' else None
      | EmptyString => None
      end
  end.

(** Reads the literal [p] off the front of [s]. *)
Fixpoint take_literal (p s : string) : option string :=
  match p with
  | EmptyString => Some s
  | String c p' =>
      match s with
      | String d s' => if Ascii.eqb c d then take_literal p' s' else None
      | EmptyString => None
      end
  end.

(** Runs the readers [ps] one after the other; the result is what is left
    of [s], if all of them succeed. *)
Definition sequence (ps : list (string → option string)) (s : string)
  : option string :=
  foldl (λ (rest : option string) p, rest ≫= p) (Some s) ps.

(** The regular expression [^health-[0-9a-f]{32}\.yaml$]. *)
Definition matches_health_file_name (name : string) : bool :=
  match
    sequence [take_literal "health-"; take_hex 32; take_literal ".yaml"] name
  with
  | Some EmptyString => true
  | _ => false
  end.

(** The format of the strings [crypto.randomUUID()] returns: groups of 8, 4,
    4, 4 and 12 lower-case hexadecimal digits separated by dashes. *)
Definition is_uuid (s : string) : bool :=
  match
    sequence
      [ take_hex 8; take_literal "-"; take_hex 4; take_literal "-";
        take_hex 4; take_literal "-"; take_hex 4; take_literal "-";
        take_hex 12 ] s
  with
  | Some EmptyString => true
  | _ => false
  end.

(** ** Views of the calls of a session *)

(** The calls that end in [writeStatus]: the ticks and the stops. *)
Definition writes_file (c : Call) : bool :=
  match c with
  | SetStatus _ => false
  | Tick | Stop => true
  end.

Definition is_stop (c : Call) : bool :=
  match c with
  | Stop => true
  | Tick | SetStatus _ => false
  end.

(** The calls that cannot put another code in place of a failure code: the
    ticks, the stops, [setStatus] of the shutdown code and [setStatus] of a
    string that is not in the table. *)
Definition keeps_failure (c : Call) : bool :=
  match c with
  | SetStatus s =>
      bool_decide (s = STATUS_AGENT_SHUTDOWN) || negb (VALID_CODES_has s)
  | Tick | Stop => true
  end.

(** The number of line breaks in a string. *)
Fixpoint count_newlines (s : string) : nat :=
  match s with
  | String c s' =>
      ((if Ascii.eqb c (ascii_of_nat 10) then 1 else 0) + count_newlines s')%nat
  | EmptyString => 0%nat
  end.

(** * The OpenTelemetry bridge

    The tracer provider, its tracers and its span processors. The objects
    that the bridge only stores and hands on (the configuration, the spans,
    the contexts, the processors of the caller) are known by a reference;
    [new] takes the next free reference of the heap. *)

Module Otel.

Definition Ref : Type := nat.

(** ** The span processors (src/unnamed/part_002) *)

(** A span processor: the no-op one of the bridge, or one of the caller. *)
Inductive SpanProcessor : Type :=
  | NoopSpanProcessor
  | Foreign (p : Ref).

(** The calls that reach the processors of the caller. *)
Inductive ProcessorCall : Type :=
  | onStart_call (p : Ref) (span context : Ref)
  | onEnd_call (p : Ref) (span : Ref).

(** [p.onStart(span, context)]: nothing for the no-op processor. *)
Definition SpanProcessor_onStart (span context : Ref)
    (calls : list ProcessorCall) (p : SpanProcessor) : list ProcessorCall :=
  match p with
  | NoopSpanProcessor => calls
  | Foreign r => calls ++ [onStart_call r span context]
  end.

(** [p.onEnd(span)] *)
Definition SpanProcessor_onEnd (span : Ref)
    (calls : list ProcessorCall) (p : SpanProcessor) : list ProcessorCall :=
  match p with
  | NoopSpanProcessor => calls
  | Foreign r => calls ++ [onEnd_call r span]
  end.

(** The private array [#processors] of a [MultiSpanProcessor]. *)
Record MultiSpanProcessor := {
  multi_processors : list SpanProcessor;
}.

(** [new MultiSpanProcessor(processors)]: the elements are pushed, one by
    one, on an array of its own. *)
Definition MultiSpanProcessor_new (processors : list SpanProcessor)
  : MultiSpanProcessor :=
  {| multi_processors := foldl (λ own p, own ++ [p]) [] processors |}.

(** [onStart(span, context)] *)
Definition onStart (this : MultiSpanProcessor) (span context : Ref)
    (calls : list ProcessorCall) : list ProcessorCall :=
  foldl (SpanProcessor_onStart span context) calls (multi_processors this).

(** [onEnd(span)] *)
Definition onEnd (this : MultiSpanProcessor) (span : Ref)
    (calls : list ProcessorCall) : list ProcessorCall :=
  foldl (SpanProcessor_onEnd span) calls (multi_processors this).

(** ** The tracer (src/unnamed/part_003, lines 12-26) *)

(** The first argument of [new Tracer]. *)
Record InstrumentationLibrary := {
  name : string;
  version : string;
  schemaUrl : option string;
}.

Record Tracer := {
  tracer_ref : Ref;                 (* the object itself *)
  tracer_config : Ref;              (* #config *)
  instrumentationLibrary : InstrumentationLibrary;
  tracerProvider : Ref;             (* #tracerProvider *)
}.

(** ** The provider (lib/instrumentation/otel/tracer-provider.js) *)

(** The argument of the constructor, as far as it is read. *)
Record TracerConfig := {
  config_ref : Ref;
  config_resource : option Ref;
}.

(** The [options] of [getTracer], as far as they are read. *)
Record TracerOptions := {
  options_schemaUrl : option string;
}.

Record NRTracerProvider := {
  provider_ref : Ref;               (* the object itself *)
  config : Ref;                     (* #config *)
  resource : option Ref;            (* #resource *)
  tracers : gmap string Tracer;     (* #tracers *)
  contextManager : Ref;             (* #contextManager *)
  processors : list SpanProcessor;  (* #processors *)
  activeProcessor : option MultiSpanProcessor;  (* #activeProcessor *)
}.

(** [addSpanProcessor(processor)] (lines 49-52) *)
Definition addSpanProcessor (processor : SpanProcessor)
    (this : NRTracerProvider) : NRTracerProvider :=
  let processors := processors this ++ [processor] in
  {| provider_ref := provider_ref this; config := config this;
     resource := resource this; tracers := tracers this;
     contextManager := contextManager this;
     processors := processors;
     activeProcessor := Some (MultiSpanProcessor_new processors) |}.

(** [new NRTracerProvider(config)] (lines 36-42); without an argument the
    configuration is a new empty object. The provider, the configuration if
    it is new, and the context manager take the next references of [heap];
    the result is the provider and the heap after these allocations. *)
Definition constructor (config : option TracerConfig) (heap : Ref)
  : NRTracerProvider * Ref :=
  let self := heap in
  let heap := S heap in
  let '(config, heap) :=
    match config with
    | Some c => (c, heap)
    | None => ({| config_ref := heap; config_resource := None |}, S heap)
    end in
  let manager := heap in
  let heap := S heap in
  (addSpanProcessor NoopSpanProcessor
     {| provider_ref := self; config := config_ref config;
        resource := config_resource config; tracers := ∅;
        contextManager := manager; processors := [];
        activeProcessor := None |},
   heap).

(** [getActiveSpanProcessor()] (lines 57-59) *)
Definition getActiveSpanProcessor (this : NRTracerProvider)
  : option MultiSpanProcessor :=
  activeProcessor this.

(** [x || ''] for a string that may be [undefined]. *)
Definition or_empty (x : option string) : string :=
  match x with
  | Some s => if bool_decide (s = "") then "" else s
  | None => ""
  end.

(** The key under which a tracer is kept (line 78). *)
Definition tracer_key (name version : string) (schemaUrl : option string)
  : string :=
  name +:+ "@" +:+ version +:+ ":" +:+ or_empty schemaUrl.

(** [getTracer(name, version, options)] (lines 75-87): the tracer, the
    provider and the heap after the call. *)
Definition getTracer (name : string) (version : option string)
    (options : option TracerOptions) (this : NRTracerProvider) (heap : Ref)
  : Tracer * NRTracerProvider * Ref :=
  let version := default "0.0.0" version in
  let schemaUrl := options ≫= options_schemaUrl in
  let key := tracer_key name version schemaUrl in
  match tracers this !! key with
  | None =>
      let tracer :=
        {| tracer_ref := heap; tracer_config := config this;
           instrumentationLibrary :=
             {| name := name; version := version; schemaUrl := schemaUrl |};
           tracerProvider := provider_ref this |} in
      (tracer,
       {| provider_ref := provider_ref this; config := config this;
          resource := resource this;
          tracers := <[key := tracer]> (tracers this);
          contextManager := contextManager this;
          processors := processors this;
          activeProcessor := activeProcessor this |},
       S heap)
  | Some tracer => (tracer, this, heap)
  end.

(** ** What a caller does with a provider *)

Inductive Request : Type :=
  | GetTracer (name : string) (version : option string)
      (options : option TracerOptions)
  | AddSpanProcessor (processor : SpanProcessor).

Definition request (q : Request) (this : NRTracerProvider) (heap : Ref)
  : NRTracerProvider * Ref :=
  match q with
  | GetTracer n v o =>
      let r := getTracer n v o this heap in (r.1.2, r.2)
  | AddSpanProcessor p => (addSpanProcessor p this, heap)
  end.

Fixpoint serve (qs : list Request) (this : NRTracerProvider) (heap : Ref)
  : NRTracerProvider * Ref :=
  match qs with
  | [] => (this, heap)
  | q :: qs' => let r := request q this heap in serve qs' r.1 r.2
  end.

(** The key of the library a tracer was made for. *)
Definition key_of (t : Tracer) : string :=
  tracer_key (name (instrumentationLibrary t))
    (version (instrumentationLibrary t))
    (schemaUrl (instrumentationLibrary t)).

(** The processors that requests add, in order. *)
Definition added (qs : list Request) : list SpanProcessor :=
  omap (λ q, match q with
             | AddSpanProcessor p => Some p
             | GetTracer _ _ _ => None
             end) qs.

(** The references of the processors of the caller. *)
Definition foreign (ps : list SpanProcessor) : list Ref :=
  omap (λ p, match p with
             | Foreign r => Some r
             | NoopSpanProcessor => None
             end) ps.

(** The character [c] does not occur in [s]. *)
Fixpoint free_of (c : ascii) (s : string) : bool :=
  match s with
  | String a s' => negb (Ascii.eqb a c) && free_of c s'
  | EmptyString => true
  end.

(** Every tracer is filed under the key of its library, was allocated before
    [heap], and belongs to [this]. *)
Definition tracers_ok (this : NRTracerProvider) (heap : Ref) : Prop :=
  ∀ k t, tracers this !! k = Some t →
    key_of t = k ∧ (tracer_ref t < heap)%nat ∧
    tracerProvider t = provider_ref this ∧ tracer_config t = config this.

(** No two keys share a tracer object. *)
Definition tracers_distinct (this : NRTracerProvider) : Prop :=
  ∀ k1 k2 t1 t2,
    tracers this !! k1 = Some t1 → tracers this !! k2 = Some t2 →
    tracer_ref t1 = tracer_ref t2 → k1 = k2.

End Otel.

(** * The datastore shim (lib/shim/datastore-shim.js)

    The parts of the shim that compute on their arguments: the clean-up of
    the collection name in [parseQuery] and the normalisation of the
    datastore parameters. *)

Module Datastore.

(** JavaScript values of the primitive types. *)
Inductive Value : Type :=
  | undefined
  | null
  | boolean (b : bool)
  | number (n : Number)
  | str (s : string).

#[global] Instance Value_eq_dec : EqDecision Value.
Proof. solve_decision. Defined.

(** The values that count as true in a condition. *)
Definition truthy (v : Value) : bool :=
  match v with
  | undefined | null => false
  | boolean b => b
  | number NaN => false
  | number (Fin z) => negb (z =? 0)
  | str s => negb (bool_decide (s = ""))
  end.

(** [x || y] *)
Definition or_else (x y : Value) : Value := if truthy x then x else y.

(** [typeof v === 'number'] *)
Definition is_number (v : Value) : bool :=
  match v with
  | number _ => true
  | _ => false
  end.

(** An object with properties of its own only, such as
    [Object.create(null)] with properties assigned to it. *)
Abbreviation Object := (gmap string Value).

(** [object[key]]: a missing property reads as [undefined]. *)
Definition get (key : string) (object : Object) : Value :=
  default undefined (object !! key).

Definition INSTANCE_UNKNOWN : string := "unknown".

(** ** parseQuery (lines 375-399) *)

(** The characters of the first test (line 381): an opening bracket or
    brace, a single or double quote, a backquote. *)
Definition is_opening (c : ascii) : bool :=
  let n := nat_of_ascii c in
  ((n =? 91) || (n =? 123) || (n =? 39) || (n =? 34) || (n =? 96))%nat.

(** The characters of the second test (line 384): a closing bracket or
    brace, a single or double quote, a backquote. *)
Definition is_closing (c : ascii) : bool :=
  let n := nat_of_ascii c in
  ((n =? 93) || (n =? 125) || (n =? 39) || (n =? 34) || (n =? 96))%nat.

(** The last character of a string, if it has one. *)
Fixpoint last_char (s : string) : option ascii :=
  match s with
  | EmptyString => None
  | String c EmptyString => Some c
  | String _ s' => last_char s'
  end.

(** [s.substring(0, s.length - 1)] *)
Fixpoint drop_last (s : string) : string :=
  match s with
  | EmptyString => EmptyString
  | String _ EmptyString => EmptyString
  | String c s' => String c (drop_last s')
  end.

(** Lines 380-387 for a collection that is a string: the enclosing special
    characters of a name of more than two characters are stripped. *)
Definition strip_collection (collection : string) : string :=
  if (2 <? String.length collection)%nat then
    let collection :=
      match collection with
      | String c rest => if is_opening c then rest else collection
      | EmptyString => collection
      end in
    match last_char collection with
    | Some c => if is_closing c then drop_last collection else collection
    | None => collection
    end
  else collection.

(** What a query parser returns, as far as [parseQuery] reads it. *)
Record ParsedQueryData := {
  operation : Value;
  collection : Value;
  query : Value;
}.

(** The arguments of [new ParsedStatement(type, operation, collection,
    raw)]. *)
Record ParsedStatement := {
  statement_type : Value;
  statement_operation : Value;
  statement_collection : Value;
  statement_raw : Value;
}.

(** [parseQuery(query, nodule)]: [queryParser] is the parser of the shim
    applied to [nodule], [PREFIX] is [this._metrics.PREFIX] (the metrics are
    there once [setDatastore] has been called) and [record_sql] is
    [this.agent.config.transaction_tracer.record_sql]. *)
Definition parseQuery (queryParser : string → ParsedQueryData)
    (PREFIX record_sql : Value) (query : string) : ParsedStatement :=
  let parsed := queryParser query in
  let collection :=
    match collection parsed with
    | str s => str (strip_collection s)
    | other => other
    end in
  let queryRecorded :=
    bool_decide (record_sql = str "raw")
    || bool_decide (record_sql = str "obfuscated") in
  {| statement_type := PREFIX;
     statement_operation := operation parsed;
     statement_collection := collection;
     statement_raw := if queryRecorded then Datastore.query parsed else null |}.

(** ** The normalisation of the parameters (lines 646-708) *)

(** What the normalisation reads of the configuration of the agent. *)
Record Config := {
  database_name_reporting_enabled : bool;
  instance_reporting_enabled : bool;
  (** the result of [config.getHostnameSafe()] *)
  getHostnameSafe : Value;
}.

Section normalize.
Context `{Platform}.

(** [urltils.isLocalhost], of lib/util/urltils.js. *)
Variable isLocalhost : Value → bool.

(** [String(v)] *)
Definition String_of (v : Value) : string :=
  match v with
  | undefined => "undefined"
  | null => "null"
  | boolean b => boolean_toString b
  | number n => Number_toString n
  | str s => s
  end.

(** [_normalizeDatabaseName(parameters, dsTracerConf)] (lines 666-676) *)
Definition _normalizeDatabaseName (config : Config) (parameters : Object)
  : Object :=
  if negb (database_name_reporting_enabled config) then
    delete "database_name" parameters
  else
    match parameters !! "database_name" with
    | Some database_name =>
        if negb (bool_decide (database_name = boolean false)) then
          <["database_name" :=
              if is_number database_name
              then str (String_of database_name)
              else or_else database_name (str INSTANCE_UNKNOWN)]> parameters
        else parameters
    | None => parameters
    end.

(** [_normalizeInstanceInformation(parameters, dsTracerConf, config)]
    (lines 687-708) *)
Definition _normalizeInstanceInformation (config : Config)
    (parameters : Object) : Object :=
  if negb (instance_reporting_enabled config) then
    delete "port_path_or_id" (delete "host" parameters)
  else
    let parameters :=
      match parameters !! "port_path_or_id" with
      | Some port =>
          <["port_path_or_id" :=
              str (String_of (or_else port (str INSTANCE_UNKNOWN)))]>
            parameters
      | None => parameters
      end in
    match parameters !! "host" with
    | Some _ =>
        let parameters :=
          if truthy (get "host" parameters)
             && isLocalhost (get "host" parameters)
          then <["host" := getHostnameSafe config]> parameters
          else parameters in
        if negb (truthy (get "host" parameters))
           || bool_decide (get "host" parameters = str "UNKNOWN_BOX")
        then <["host" := str INSTANCE_UNKNOWN]> parameters
        else parameters
    | None => parameters
    end.

(** [_normalizeParameters(parameters)] (lines 646-657); [_datastore] is
    [this._datastore]. The source changes the object it is given in place
    and returns it; the result here is the content of that object after the
    call. *)
Definition _normalizeParameters (config : Config) (_datastore : Value)
    (parameters : option Object) : Object :=
  let parameters := default ∅ parameters in
  let parameters :=
    <["product" := or_else (get "product" parameters) _datastore]>
      parameters in
  let parameters := _normalizeDatabaseName config parameters in
  _normalizeInstanceInformation config parameters.

(** The normalisation property by property: what it makes of the value of
    [database_name], of [port_path_or_id] and of [host] when the reporting
    is enabled and the property is present. *)
Definition normal_database_name (v : Value) : Value :=
  if bool_decide (v = boolean false) then v
  else if is_number v then str (String_of v)
  else or_else v (str INSTANCE_UNKNOWN).

Definition normal_port (v : Value) : Value :=
  str (String_of (or_else v (str INSTANCE_UNKNOWN))).

Definition normal_host (config : Config) (v : Value) : Value :=
  let v := if truthy v && isLocalhost v then getHostnameSafe config else v in
  if negb (truthy v) || bool_decide (v = str "UNKNOWN_BOX")
  then str INSTANCE_UNKNOWN
  else v.

End normalize.

(** A configuration and a localhost test for the examples: both kinds of
    reporting enabled, the host name [box-1], and the usual names of the
    local host. *)
Definition test_config : Config :=
  {| database_name_reporting_enabled := true;
     instance_reporting_enabled := true;
     getHostnameSafe := str "box-1" |}.

Definition test_isLocalhost (host : Value) : bool :=
  bool_decide (host = str "localhost")
  || bool_decide (host = str "127.0.0.1")
  || bool_decide (host = str "::1").

End Datastore.

(** * Examples and properties *)

(** ** The model on concrete inputs *)

Example parseInt_30 : Number_mul (parseInt "30") (Fin 1000) = Fin 30000.
Proof. reflexivity. Qed.

Example parseInt_padded : parseInt "  -12px" = Fin (-12).
Proof. reflexivity. Qed.

Example parseInt_nan : Number_mul (parseInt "soon") (Fin 1000) = NaN.
Proof. reflexivity. Qed.

Example round53_exact : round53 (2 ^ 53 + 1) = 2 ^ 53.
Proof. reflexivity. Qed.

Example round53_up : round53 (2 ^ 53 + 3) = 2 ^ 53 + 4.
Proof. reflexivity. Qed.

Example round53_carry : round53 (2 ^ 54 - 1) = 2 ^ 54.
Proof. reflexivity. Qed.

(** The test 'initializes and writes to destination'. *)
Example initializes_and_writes :
  map data (writes (@session test_platform test_env [Tick] world0).2) =
  [join newline
     [ "healthy: true"; "status: 'Healthy.'"; "last_error: NR-APM-000";
       "start_time_unix_nano: 1"; "status_time_unix_nano: 2" ]].
Proof. vm_compute. reflexivity. Qed.

(** The test 'stop leaves last error code in place'. *)
Example stop_leaves_last_error :
  map data
    (writes (@session test_platform test_env
               [Tick; SetStatus STATUS_BACKEND_ERROR; Stop] world0).2) !! 1%nat =
  Some (join newline
     [ "healthy: false"; "status: 'HTTP error communicating with New Relic.'";
       "last_error: NR-APM-004";
       "start_time_unix_nano: 1"; "status_time_unix_nano: 3" ]).
Proof. vm_compute. reflexivity. Qed.

(** The test 'setStatus logs info message if shutdown and not healthy'. *)
Example setStatus_logs_info :
  last (logs (@session test_platform test_env
                [SetStatus STATUS_BACKEND_ERROR;
                 SetStatus STATUS_AGENT_SHUTDOWN] world0).2) =
  Some (info,
        "not setting shutdown health status due to current status code: NR-APM-004").
Proof. vm_compute. reflexivity. Qed.

(** The tests 'logs error if writing failed' and 'stop logs writing
    error': the callbacks of a write that ends with the error 'boom'. *)
Example callbacks_log_errors :
  logs (run_callback healthCheck_callback (Some "boom") world0).2 =
    [(error, "error when writing out health status: boom")] ∧
  logs (run_callback stop_callback (Some "boom") world0).2 =
    [(error, "error when writing out health status during shutdown: boom")] ∧
  logs (run_callback healthCheck_callback None world0).2 = [].
Proof. repeat split. Qed.

(** ** Properties of setStatus *)

(** Unfolds the monad of a method body applied to a world. *)
Ltac run_M :=
  cbv [mbind mret M_bind M_ret log clearInterval fs_writeFile
       process_hrtime_bigint crypto_randomUUID setInterval unref fst snd
       hr_reads uuid_draws next_timer timers unrefd logs writes].

Lemma VALID_CODES_has_true (s : string) :
  VALID_CODES_has s = true ↔ is_Some (VALID_CODES !! s).
Proof. unfold VALID_CODES_has. apply bool_decide_eq_true. Qed.

Lemma VALID_CODES_has_false (s : string) :
  VALID_CODES_has s = false ↔ VALID_CODES !! s = None.
Proof.
  unfold VALID_CODES_has. rewrite bool_decide_eq_false.
  rewrite <- eq_None_not_Some. reflexivity.
Qed.

Lemma setStatus_unknown (s : string) (this : HealthReporter) (w : World) :
  VALID_CODES !! s = None →
  setStatus s this w =
  (this, (log warn ("invalid health reporter status provided: " +:+ s) w).2).
Proof.
  intros Hs. apply VALID_CODES_has_false in Hs.
  unfold setStatus. rewrite Hs. reflexivity.
Qed.

Lemma setStatus_known (s : string) (this : HealthReporter) (w : World) :
  is_Some (VALID_CODES !! s) →
  setStatus s this w =
  if bool_decide (s = STATUS_AGENT_SHUTDOWN)
     && negb (bool_decide (status this = STATUS_HEALTHY))
  then (this,
        (log info
           ("not setting shutdown health status due to current status code: "
            +:+ status this) w).2)
  else (set_status s this, w).
Proof.
  intros Hs. apply VALID_CODES_has_true in Hs.
  unfold setStatus. rewrite Hs. cbn [negb].
  destruct (_ && _); reflexivity.
Qed.

Lemma shutdown_known : is_Some (VALID_CODES !! STATUS_AGENT_SHUTDOWN).
Proof. vm_compute. eauto. Qed.

Lemma healthy_known : is_Some (VALID_CODES !! STATUS_HEALTHY).
Proof. vm_compute. eauto. Qed.

Lemma setStatus_valid (s : string) (this : HealthReporter) (w : World) :
  valid this → valid (setStatus s this w).1.
Proof.
  intros Hv. destruct (VALID_CODES !! s) as [m|] eqn:Hs.
  - rewrite setStatus_known by eauto.
    destruct (_ && _); cbn; [exact Hv|]. unfold valid. cbn. eauto.
  - rewrite setStatus_unknown by assumption. exact Hv.
Qed.

Section reporter_facts.
Context `{Platform}.

Lemma healthCheck_this (this : HealthReporter) (w : World) :
  (healthCheck this w).1 = this.
Proof. reflexivity. Qed.

Lemma stop_this (this : HealthReporter) (w : World) :
  (stop this w).1 = this.
Proof.
  destruct w. unfold stop. run_M.
  destruct (interval this), (bool_decide _); reflexivity.
Qed.

Lemma constructor_status (env : ProcessEnv) (w : World) :
  status (constructor env w).1 = STATUS_HEALTHY.
Proof.
  unfold constructor.
  destruct (falsy _); [reflexivity|].
  destruct (NEW_RELIC_SUPERAGENT_HEALTH_DELIVERY_LOCATION env); [|reflexivity].
  destruct (NEW_RELIC_SUPERAGENT_HEALTH_FREQUENCY env); reflexivity.
Qed.

Lemma call_valid (c : Call) (this : HealthReporter) (w : World) :
  valid this → valid (call c this w).1.
Proof.
  destruct c; cbn [call].
  - rewrite healthCheck_this. auto.
  - apply setStatus_valid.
  - rewrite stop_this. auto.
Qed.

Lemma run_valid (cs : list Call) (this : HealthReporter) (w : World) :
  valid this → valid (run cs this w).1.
Proof.
  revert this w. induction cs as [|c cs IH]; intros this w Hv; [exact Hv|].
  cbn [run]. unfold mbind, M_bind. cbn. apply IH. apply call_valid, Hv.
Qed.

End reporter_facts.

(** ** The claims about setStatus *)

(** C2: [setStatus] of the shutdown code. From the healthy code the status
    register moves to the shutdown code (and nothing is logged); from any
    other code the instance is left as it was and exactly one [info] entry
    is logged, whose text ends with the code that was kept. *)
Theorem setStatus_shutdown (this : HealthReporter) (w : World) :
  let r := setStatus STATUS_AGENT_SHUTDOWN this w in
  (status this = STATUS_HEALTHY →
     status r.1 = STATUS_AGENT_SHUTDOWN ∧ r.2 = w) ∧
  (status this ≠ STATUS_HEALTHY →
     r.1 = this ∧
     logs r.2 = logs w ++
       [(info,
         "not setting shutdown health status due to current status code: "
         +:+ status this)] ∧
     writes r.2 = writes w ∧ timers r.2 = timers w).
Proof.
  cbv zeta. rewrite setStatus_known by exact shutdown_known.
  rewrite bool_decide_eq_true_2 by reflexivity. cbn [andb].
  split; intros Hst.
  - rewrite bool_decide_eq_true_2 by assumption. cbn. auto.
  - rewrite bool_decide_eq_false_2 by assumption. cbn. auto.
Qed.

Lemma setStatus_shutdown_witness :
  status (setStatus STATUS_AGENT_SHUTDOWN fresh world0).1
    = STATUS_AGENT_SHUTDOWN ∧
  logs (setStatus STATUS_AGENT_SHUTDOWN
          (set_status STATUS_BACKEND_ERROR fresh) world0).2 =
    [(info,
      "not setting shutdown health status due to current status code: NR-APM-004")].
Proof.
  split.
  - apply (proj1 (setStatus_shutdown fresh world0)). reflexivity.
  - apply (proj2 (setStatus_shutdown
                    (set_status STATUS_BACKEND_ERROR fresh) world0)).
    discriminate.
Defined.

(** C3: a string that is not a key of the table is rejected: [setStatus]
    returns normally with the instance unchanged and exactly one [warn]
    entry, whose text ends with the rejected string, added to the log.
    Hence the status register always holds a key of the table: the
    constructor establishes it, every call keeps it, and so it holds at the
    end of every session. *)
Theorem setStatus_rejects_unknown_code `{Platform}
    (s : string) (this : HealthReporter) (w : World) :
  VALID_CODES !! s = None →
  (let r := setStatus s this w in
   r.1 = this ∧
   logs r.2 = logs w ++
     [(warn, "invalid health reporter status provided: " +:+ s)] ∧
   writes r.2 = writes w ∧ timers r.2 = timers w) ∧
  (∀ env w0, valid (constructor env w0).1) ∧
  (∀ c this0 w0, valid this0 → valid (call c this0 w0).1) ∧
  (∀ env cs w0, valid (session env cs w0).1).
Proof.
  intros Hs. split; [|split; [|split]].
  - cbv zeta. rewrite setStatus_unknown by assumption. cbn. auto.
  - intros env w0. unfold valid. rewrite constructor_status.
    exact healthy_known.
  - intros c this0 w0. apply call_valid.
  - intros env cs w0. unfold session, mbind, M_bind. cbn.
    apply run_valid. unfold valid. rewrite constructor_status.
    exact healthy_known.
Qed.

Lemma setStatus_rejects_unknown_code_witness :
  VALID_CODES !! "bad-code" = None ∧
  logs (setStatus "bad-code" fresh world0).2 =
    [(warn, "invalid health reporter status provided: bad-code")].
Proof.
  split; [reflexivity|].
  apply (@setStatus_rejects_unknown_code test_platform "bad-code" fresh world0).
  reflexivity.
Defined.

(** C6: a code of the table other than the shutdown code is stored in the
    status register whatever the register held, and the world (the log in
    particular) is left as it was. *)
Theorem setStatus_sets_valid_code
    (code : string) (this : HealthReporter) (w : World) :
  is_Some (VALID_CODES !! code) →
  code ≠ STATUS_AGENT_SHUTDOWN →
  let r := setStatus code this w in
  status r.1 = code ∧ r.1 = set_status code this ∧ r.2 = w.
Proof.
  intros Hcode Hne. cbv zeta. rewrite setStatus_known by assumption.
  rewrite (bool_decide_eq_false_2 _ Hne). cbn. auto.
Qed.

Lemma setStatus_sets_valid_code_witness :
  status (setStatus STATUS_CONNECT_ERROR
            (set_status STATUS_BACKEND_ERROR fresh) world0).1
    = STATUS_CONNECT_ERROR ∧
  logs (setStatus STATUS_CONNECT_ERROR
          (set_status STATUS_BACKEND_ERROR fresh) world0).2 = [].
Proof.
  pose proof (setStatus_sets_valid_code STATUS_CONNECT_ERROR
                (set_status STATUS_BACKEND_ERROR fresh) world0) as Hw.
  cbv zeta in Hw.
  destruct Hw as (Hs & _ & Hw).
  - vm_compute. eauto.
  - discriminate.
  - split; [exact Hs|]. rewrite Hw. reflexivity.
Defined.

(** ** The claims about stop *)

Section stop_facts.
Context `{Platform}.

(** What [writeStatus] does to the world. *)
Lemma writeStatus_eq (f : option string) (healthy : bool) (code : string)
    (msg : option string) (start : option Number) (cb : Callback) (w : World) :
  writeStatus f healthy code msg start cb w =
  (tt,
   {| hr_reads := S (hr_reads w); uuid_draws := uuid_draws w;
      next_timer := next_timer w; timers := timers w; unrefd := unrefd w;
      logs := logs w;
      writes := writes w ++
        [{| file := f;
            data := join newline
              (status_lines healthy msg code start
                 (Number_of_bigint (hrtime (hr_reads w))));
            encoding := "utf8"; callback := cb |}] |}).
Proof. reflexivity. Qed.

Lemma clearInterval_writes (t : option nat) (w : World) :
  writes (clearInterval t w).2 = writes w
  ∧ hr_reads (clearInterval t w).2 = hr_reads w
  ∧ logs (clearInterval t w).2 = logs w.
Proof. destruct t; cbn; auto. Qed.

(** The write issued by [stop], and its other effects on the world. *)
Lemma stop_world (this : HealthReporter) (w : World) :
  let healthy := bool_decide (status this = STATUS_HEALTHY) in
  let code := if healthy then STATUS_AGENT_SHUTDOWN else status this in
  writes (stop this w).2 = writes w ++
    [{| file := destFile this;
        data := join newline
          (status_lines healthy (VALID_CODES !! code) code (startTime this)
             (Number_of_bigint (hrtime (hr_reads w))));
        encoding := "utf8"; callback := stop_callback |}]
  ∧ hr_reads (stop this w).2 = S (hr_reads w)
  ∧ logs (stop this w).2 = logs w
  ∧ timers (stop this w).2 =
      match interval this with
      | Some t => delete t (timers w)
      | None => timers w
      end.
Proof.
  cbv zeta. unfold stop. unfold mbind at 1. unfold M_bind at 1. cbv zeta.
  destruct (clearInterval_writes (interval this) w) as (Hw & Hr & Hl).
  destruct (bool_decide (status this = STATUS_HEALTHY));
    unfold mbind, M_bind; cbv zeta; rewrite writeStatus_eq; cbn [fst snd];
    unfold mret, M_ret; cbn [fst snd writes hr_reads logs timers];
    rewrite Hw, Hr, Hl; (split; [reflexivity|]); (split; [reflexivity|]);
    (split; [reflexivity|]); destruct (interval this); reflexivity.
Qed.

End stop_facts.

(** C4: [stop] cancels the timer of the instance and issues exactly one more
    write, to the destination file. From the healthy code the record says
    [healthy: true] with the shutdown message and the shutdown code; from any
    other code of the table it says [healthy: false] with that code and its
    message. *)
Theorem stop_final_write `{Platform} (this : HealthReporter) (w : World) :
  let r := stop this w in
  let now := Number_of_bigint (hrtime (hr_reads w)) in
  timers r.2 =
    match interval this with
    | Some t => delete t (timers w)
    | None => timers w
    end ∧
  (∀ t, interval this = Some t → timers r.2 !! t = None) ∧
  (status this = STATUS_HEALTHY →
     writes r.2 = writes w ++
       [{| file := destFile this;
           data := join newline
             [ "healthy: true";
               "status: 'Agent has shutdown.'";
               "last_error: NR-APM-099";
               "start_time_unix_nano: " +:+ number_or_undefined (startTime this);
               "status_time_unix_nano: " +:+ Number_toString now ];
           encoding := "utf8"; callback := stop_callback |}]) ∧
  (status this ≠ STATUS_HEALTHY →
     ∀ msg, VALID_CODES !! status this = Some msg →
     writes r.2 = writes w ++
       [{| file := destFile this;
           data := join newline
             [ "healthy: false";
               "status: '" +:+ msg +:+ "'";
               "last_error: " +:+ status this;
               "start_time_unix_nano: " +:+ number_or_undefined (startTime this);
               "status_time_unix_nano: " +:+ Number_toString now ];
           encoding := "utf8"; callback := stop_callback |}]).
Proof.
  cbv zeta. destruct (stop_world this w) as (Hw & _ & _ & Ht).
  split; [exact Ht|]. split; [|split].
  - intros t Hi. rewrite Ht, Hi. apply lookup_delete_eq.
  - intros Hst. rewrite Hw.
    rewrite (bool_decide_eq_true_2 _ Hst). reflexivity.
  - intros Hst msg Hmsg. rewrite Hw.
    rewrite (bool_decide_eq_false_2 _ Hst). rewrite Hmsg. reflexivity.
Qed.

Lemma stop_final_write_witness :
  map data (writes (@stop test_platform fresh world0).2) =
    [join newline
       [ "healthy: true"; "status: 'Agent has shutdown.'";
         "last_error: NR-APM-099"; "start_time_unix_nano: undefined";
         "status_time_unix_nano: 1" ]] ∧
  map data (writes (@stop test_platform
                      (set_status STATUS_BACKEND_ERROR fresh) world0).2) =
    [join newline
       [ "healthy: false";
         "status: 'HTTP error communicating with New Relic.'";
         "last_error: NR-APM-004"; "start_time_unix_nano: undefined";
         "status_time_unix_nano: 1" ]].
Proof.
  split.
  - pose proof (@stop_final_write test_platform fresh world0) as Hs.
    cbv zeta in Hs. destruct Hs as (_ & _ & Hs & _).
    rewrite Hs by reflexivity. reflexivity.
  - pose proof (@stop_final_write test_platform
                  (set_status STATUS_BACKEND_ERROR fresh) world0) as Hs.
    cbv zeta in Hs. destruct Hs as (_ & _ & _ & Hs).
    rewrite (Hs ltac:(discriminate)
               "HTTP error communicating with New Relic." eq_refl).
    reflexivity.
Defined.

(** C10: [stop] returns the instance as it found it, so the status register
    is not changed by it; two calls in a row from the healthy code both write
    the shutdown code. *)
Theorem stop_keeps_status `{Platform} (this : HealthReporter) (w : World) :
  (stop this w).1 = this ∧
  status (stop this w).1 = status this ∧
  (status this = STATUS_HEALTHY →
   let r := run [Stop; Stop] this w in
   let record (k : nat) :=
     {| file := destFile this;
        data := join newline
          [ "healthy: true";
            "status: 'Agent has shutdown.'";
            "last_error: NR-APM-099";
            "start_time_unix_nano: " +:+ number_or_undefined (startTime this);
            "status_time_unix_nano: "
              +:+ Number_toString (Number_of_bigint (hrtime k)) ];
        encoding := "utf8"; callback := stop_callback |} in
   status r.1 = STATUS_HEALTHY ∧
   writes r.2 = writes w ++ [record (hr_reads w); record (S (hr_reads w))]).
Proof.
  split; [apply stop_this|]. split; [rewrite stop_this; reflexivity|].
  intros Hst. cbv zeta. cbn [run call]. unfold mbind, M_bind, mret, M_ret.
  cbv zeta. cbn [fst snd]. rewrite !stop_this. split; [exact Hst|].
  destruct (stop_world this (stop this w).2) as (Hw2 & _).
  destruct (stop_world this w) as (Hw1 & Hr1 & _).
  rewrite Hw2, Hw1, Hr1. rewrite (bool_decide_eq_true_2 _ Hst).
  rewrite <- app_assoc. reflexivity.
Qed.

Lemma stop_keeps_status_witness :
  map data (writes (@run test_platform [Stop; Stop] fresh world0).2) =
    [join newline
       [ "healthy: true"; "status: 'Agent has shutdown.'";
         "last_error: NR-APM-099"; "start_time_unix_nano: undefined";
         "status_time_unix_nano: 1" ];
     join newline
       [ "healthy: true"; "status: 'Agent has shutdown.'";
         "last_error: NR-APM-099"; "start_time_unix_nano: undefined";
         "status_time_unix_nano: 2" ]].
Proof.
  pose proof (@stop_keeps_status test_platform fresh world0) as (_ & _ & Hs).
  cbv zeta in Hs. destruct (Hs eq_refl) as (_ & Hw).
  rewrite Hw. reflexivity.
Defined.

(** ** The claims about the constructor *)

Section constructor_facts.
Context `{Platform}.

Lemma falsy_Some (s : string) : s ≠ "" → falsy (Some s) = false.
Proof. intros Hs. cbn. apply bool_decide_eq_false_2, Hs. Qed.

(** Construction without a fleet identifier. *)
Lemma constructor_no_fleet (env : ProcessEnv) (w : World) :
  falsy (NEW_RELIC_SUPERAGENT_FLEET_ID env) = true →
  constructor env w =
  (fresh,
   (log info "new relic control not present, skipping health reporting" w).2).
Proof. intros Hf. unfold constructor. rewrite Hf. reflexivity. Qed.

(** Construction without an output directory. *)
Lemma constructor_no_outDir (env : ProcessEnv) (w : World) :
  falsy (NEW_RELIC_SUPERAGENT_FLEET_ID env) = false →
  NEW_RELIC_SUPERAGENT_HEALTH_DELIVERY_LOCATION env = None →
  constructor env w =
  (fresh,
   (log error
      "health check output directory not provided, skipping health reporting"
      w).2).
Proof. intros Hf Ho. unfold constructor. rewrite Hf, Ho. reflexivity. Qed.

(** Construction that goes through. *)
Lemma constructor_complete (env : ProcessEnv) (outDir : string) (w : World) :
  falsy (NEW_RELIC_SUPERAGENT_FLEET_ID env) = false →
  NEW_RELIC_SUPERAGENT_HEALTH_DELIVERY_LOCATION env = Some outDir →
  let checkInterval :=
    match NEW_RELIC_SUPERAGENT_HEALTH_FREQUENCY env with
    | None => Fin 5000
    | Some s => Number_mul (parseInt s) (Fin 1000)
    end in
  let dest :=
    path_join outDir
      (health_file_name (replaceAll "-" "" (randomUUID (uuid_draws w)))) in
  constructor env w =
  ({| status := STATUS_HEALTHY; interval := Some (next_timer w);
      destFile := Some dest;
      startTime := Some (Number_of_bigint (hrtime (hr_reads w))) |},
   {| hr_reads := S (hr_reads w); uuid_draws := S (uuid_draws w);
      next_timer := S (next_timer w);
      timers := <[next_timer w := checkInterval]> (timers w);
      unrefd := {[next_timer w]} ∪ unrefd w;
      logs := logs w ++
        match NEW_RELIC_SUPERAGENT_HEALTH_FREQUENCY env with
        | None =>
            [(debug,
              "health check interval not available, using default 5 seconds")]
        | Some _ => []
        end ++
        [(info,
          "new relic control is present, writing health on interval "
          +:+ Number_toString checkInterval +:+ " milliseconds to " +:+ dest);
         (info, "health reporter initialized")];
      writes := writes w |}).
Proof.
  intros Hf Ho. cbv zeta. unfold constructor. rewrite Hf, Ho.
  destruct w.
  destruct (NEW_RELIC_SUPERAGENT_HEALTH_FREQUENCY env) as [s|];
    run_M; rewrite <- ?app_assoc; reflexivity.
Qed.

End constructor_facts.

(** C7: when construction goes through (a fleet identifier and an output
    directory are given), a missing reporting interval is logged once at
    [debug] level, the only [debug] entry of the construction, and the timer
    is started with a delay of 5000; a given interval [s] starts the timer
    with [parseInt(s, 10) * 1000] and logs nothing at [debug] level. *)
Theorem constructor_interval `{Platform}
    (fleet outDir : string) (w : World) :
  fleet ≠ "" →
  (let r := constructor
              {| NEW_RELIC_SUPERAGENT_FLEET_ID := Some fleet;
                 NEW_RELIC_SUPERAGENT_HEALTH_DELIVERY_LOCATION := Some outDir;
                 NEW_RELIC_SUPERAGENT_HEALTH_FREQUENCY := None |} w in
   ∃ dest,
     destFile r.1 = Some dest ∧
     interval r.1 = Some (next_timer w) ∧
     timers r.2 = <[next_timer w := Fin 5000]> (timers w) ∧
     timers r.2 !! next_timer w = Some (Fin 5000) ∧
     logs r.2 = logs w ++
       [(debug, "health check interval not available, using default 5 seconds");
        (info,
         "new relic control is present, writing health on interval "
         +:+ Number_toString (Fin 5000) +:+ " milliseconds to " +:+ dest);
        (info, "health reporter initialized")]) ∧
  (∀ s : string,
   let r := constructor
              {| NEW_RELIC_SUPERAGENT_FLEET_ID := Some fleet;
                 NEW_RELIC_SUPERAGENT_HEALTH_DELIVERY_LOCATION := Some outDir;
                 NEW_RELIC_SUPERAGENT_HEALTH_FREQUENCY := Some s |} w in
   let delay := Number_mul (parseInt s) (Fin 1000) in
   ∃ dest,
     destFile r.1 = Some dest ∧
     interval r.1 = Some (next_timer w) ∧
     timers r.2 = <[next_timer w := delay]> (timers w) ∧
     timers r.2 !! next_timer w = Some delay ∧
     logs r.2 = logs w ++
       [(info,
         "new relic control is present, writing health on interval "
         +:+ Number_toString delay +:+ " milliseconds to " +:+ dest);
        (info, "health reporter initialized")]).
Proof.
  intros Hfleet. split; [|intros s]; cbv zeta.
  - rewrite (constructor_complete _ outDir)
      by (cbn; auto using bool_decide_eq_false_2).
    cbn [fst snd destFile interval timers logs app].
    eexists. repeat apply conj; try reflexivity. apply lookup_insert_eq.
  - rewrite (constructor_complete _ outDir)
      by (cbn; auto using bool_decide_eq_false_2).
    cbn [fst snd destFile interval timers logs app].
    eexists. repeat apply conj; try reflexivity. apply lookup_insert_eq.
Qed.

Lemma constructor_interval_witness :
  timers (@constructor test_platform
            {| NEW_RELIC_SUPERAGENT_FLEET_ID := Some "42";
               NEW_RELIC_SUPERAGENT_HEALTH_DELIVERY_LOCATION := Some "/tmp";
               NEW_RELIC_SUPERAGENT_HEALTH_FREQUENCY := None |} world0).2
    !! 0%nat = Some (Fin 5000) ∧
  timers (@constructor test_platform
            {| NEW_RELIC_SUPERAGENT_FLEET_ID := Some "42";
               NEW_RELIC_SUPERAGENT_HEALTH_DELIVERY_LOCATION := Some "/tmp";
               NEW_RELIC_SUPERAGENT_HEALTH_FREQUENCY := Some "30" |} world0).2
    !! 0%nat = Some (Fin 30000).
Proof.
  pose proof (@constructor_interval test_platform "42" "/tmp" world0
                ltac:(discriminate)) as [Hnone Hsome].
  split.
  - cbv zeta in Hnone. destruct Hnone as (dest & _ & _ & _ & Ht & _).
    exact Ht.
  - specialize (Hsome "30"). cbv zeta in Hsome.
    destruct Hsome as (dest & _ & _ & _ & Ht & _). exact Ht.
Defined.

(** C9: the two precondition checks differ on the empty string. A fleet
    identifier that is [undefined] or empty ends the construction with one
    [info] entry, no timer and no destination; an output directory ends it
    (with one [error] entry) only when it is [undefined]: with the empty
    string the construction goes through, joins the file name to the empty
    string and starts the timer. *)
Theorem empty_string_preconditions `{Platform}
    (fleet : string) (outDir freq : option string) (w : World) :
  fleet ≠ "" →
  (∀ falsyFleet, falsyFleet = None ∨ falsyFleet = Some "" →
   constructor
     {| NEW_RELIC_SUPERAGENT_FLEET_ID := falsyFleet;
        NEW_RELIC_SUPERAGENT_HEALTH_DELIVERY_LOCATION := outDir;
        NEW_RELIC_SUPERAGENT_HEALTH_FREQUENCY := freq |} w =
   (fresh,
    (log info "new relic control not present, skipping health reporting"
       w).2)) ∧
  constructor
    {| NEW_RELIC_SUPERAGENT_FLEET_ID := Some fleet;
       NEW_RELIC_SUPERAGENT_HEALTH_DELIVERY_LOCATION := None;
       NEW_RELIC_SUPERAGENT_HEALTH_FREQUENCY := freq |} w =
  (fresh,
   (log error
      "health check output directory not provided, skipping health reporting"
      w).2) ∧
  (let r := constructor
              {| NEW_RELIC_SUPERAGENT_FLEET_ID := Some fleet;
                 NEW_RELIC_SUPERAGENT_HEALTH_DELIVERY_LOCATION := Some "";
                 NEW_RELIC_SUPERAGENT_HEALTH_FREQUENCY := freq |} w in
   destFile r.1 =
     Some (path_join ""
             (health_file_name
                (replaceAll "-" "" (randomUUID (uuid_draws w))))) ∧
   interval r.1 = Some (next_timer w) ∧
   is_Some (timers r.2 !! next_timer w) ∧
   last (logs r.2) = Some (info, "health reporter initialized")).
Proof.
  intros Hfleet. split; [|split].
  - intros f [-> | ->]; apply constructor_no_fleet; reflexivity.
  - apply constructor_no_outDir; [apply falsy_Some, Hfleet | reflexivity].
  - cbv zeta. rewrite (constructor_complete _ "")
      by (cbn; auto using bool_decide_eq_false_2).
    cbn [fst snd destFile interval timers logs
         NEW_RELIC_SUPERAGENT_HEALTH_FREQUENCY].
    repeat apply conj; try reflexivity.
    + rewrite lookup_insert_eq. eauto.
    + rewrite app_assoc.
      change [?a; ?b] with ([a] ++ [b]). rewrite app_assoc. apply last_snoc.
Qed.

Lemma empty_string_preconditions_witness :
  (@constructor test_platform
     {| NEW_RELIC_SUPERAGENT_FLEET_ID := Some "";
        NEW_RELIC_SUPERAGENT_HEALTH_DELIVERY_LOCATION := Some "/tmp";
        NEW_RELIC_SUPERAGENT_HEALTH_FREQUENCY := Some "1" |} world0).1
    = fresh ∧
  destFile
    (@constructor test_platform
       {| NEW_RELIC_SUPERAGENT_FLEET_ID := Some "42";
          NEW_RELIC_SUPERAGENT_HEALTH_DELIVERY_LOCATION := Some "";
          NEW_RELIC_SUPERAGENT_HEALTH_FREQUENCY := Some "1" |} world0).1
    = Some "/health-123e4567e89b42d3a456426614174000.yaml".
Proof.
  pose proof (@empty_string_preconditions test_platform "42" (Some "/tmp")
                (Some "1") world0 ltac:(discriminate)) as (Hfalsy & _ & _).
  pose proof (@empty_string_preconditions test_platform "42" (Some "")
                (Some "1") world0 ltac:(discriminate)) as (_ & _ & Hempty).
  split.
  - rewrite (Hfalsy (Some "")) by (right; reflexivity). reflexivity.
  - cbv zeta in Hempty. destruct Hempty as (Hdest & _).
    rewrite Hdest. reflexivity.
Defined.

(** C1 (what the code does): after a construction that stopped early for
    want of a fleet identifier or of an output directory, [stop] still calls
    [writeStatus]: the timers are left alone, but one write is issued, for
    the file [undefined], with the shutdown record. *)
Theorem stop_after_skipped_construction_writes `{Platform}
    (outDir freq : option string) (w : World) :
  let no_fleet :=
    {| NEW_RELIC_SUPERAGENT_FLEET_ID := None;
       NEW_RELIC_SUPERAGENT_HEALTH_DELIVERY_LOCATION := outDir;
       NEW_RELIC_SUPERAGENT_HEALTH_FREQUENCY := freq |} in
  let no_outDir :=
    {| NEW_RELIC_SUPERAGENT_FLEET_ID := Some "42";
       NEW_RELIC_SUPERAGENT_HEALTH_DELIVERY_LOCATION := None;
       NEW_RELIC_SUPERAGENT_HEALTH_FREQUENCY := freq |} in
  let record :=
    {| file := None;
       data := join newline
         [ "healthy: true";
           "status: 'Agent has shutdown.'";
           "last_error: NR-APM-099";
           "start_time_unix_nano: undefined";
           "status_time_unix_nano: "
             +:+ Number_toString (Number_of_bigint (hrtime (hr_reads w))) ];
       encoding := "utf8"; callback := stop_callback |} in
  (let r := session no_fleet [Stop] w in
   destFile r.1 = None ∧ timers r.2 = timers w ∧
   writes r.2 = writes w ++ [record]) ∧
  (let r := session no_outDir [Stop] w in
   destFile r.1 = None ∧ timers r.2 = timers w ∧
   writes r.2 = writes w ++ [record]).
Proof.
  cbv zeta. unfold session, run, call.
  split.
  - unfold mbind, M_bind, mret, M_ret. cbv zeta. cbn [fst snd].
    rewrite constructor_no_fleet by reflexivity. cbn [fst snd].
    rewrite stop_this.
    match goal with |- context [stop fresh ?w1] =>
      destruct (stop_world fresh w1) as (Hw & _ & _ & Ht) end.
    rewrite Hw, Ht. repeat apply conj; reflexivity.
  - unfold mbind, M_bind, mret, M_ret. cbv zeta. cbn [fst snd].
    rewrite constructor_no_outDir by reflexivity. cbn [fst snd].
    rewrite stop_this.
    match goal with |- context [stop fresh ?w1] =>
      destruct (stop_world fresh w1) as (Hw & _ & _ & Ht) end.
    rewrite Hw, Ht. repeat apply conj; reflexivity.
Qed.

(** ** The name of the health file *)

Example uuid_of_the_tests : is_uuid "123e4567-e89b-42d3-a456-426614174000" = true.
Proof. reflexivity. Qed.

Example upper_case_is_no_uuid :
  is_uuid "123E4567-e89b-42d3-a456-426614174000" = false.
Proof. reflexivity. Qed.

Example name_of_the_tests :
  matches_health_file_name "health-123e4567e89b42d3a456426614174000.yaml" = true.
Proof. reflexivity. Qed.

Example name_with_dashes :
  matches_health_file_name "health-123e4567-e89b-42d3-a456-426614174000.yaml"
  = false.
Proof. reflexivity. Qed.

Lemma lower_hex_not_dash (c : ascii) :
  is_lower_hex c = true → Ascii.eqb c "-" = false.
Proof.
  intros Hc. destruct (Ascii.eqb_spec c "-") as [->|]; [|reflexivity].
  discriminate Hc.
Qed.

(** Hexadecimal digits survive the removal of the dashes. *)
Lemma take_hex_replaceAll (n m : nat) (s rest t t' : string) :
  take_hex n s = Some rest →
  take_hex m (replaceAll "-" "" rest +:+ t) = Some t' →
  take_hex (n + m) (replaceAll "-" "" s +:+ t) = Some t'.
Proof.
  revert s. induction n as [|n IH]; intros s Hn Hm.
  - cbn in Hn. injection Hn as ->. exact Hm.
  - destruct s as [|c s]; [discriminate|]. cbn [take_hex] in Hn.
    destruct (is_lower_hex c) eqn:Hc; [|discriminate].
    cbn [replaceAll Nat.add]. rewrite (lower_hex_not_dash c Hc).
    change (String c ?x +:+ ?y) with (String c (x +:+ y)).
    cbn [take_hex]. rewrite Hc. apply IH; assumption.
Qed.

Lemma take_dash_replaceAll (s rest : string) :
  take_literal "-" s = Some rest →
  replaceAll "-" "" s = replaceAll "-" "" rest.
Proof.
  destruct s as [|c s]; [discriminate|]. cbn [take_literal].
  destruct (Ascii.eqb_spec "-" c) as [<-|]; [|discriminate].
  intros [= ->]. reflexivity.
Qed.

(** A UUID without its dashes is 32 hexadecimal digits. *)
Lemma uuid_without_dashes (u t : string) :
  is_uuid u = true →
  take_hex 32 (replaceAll "-" "" u +:+ t) = Some t.
Proof.
  unfold is_uuid, sequence. cbn [foldl mbind option_bind]. intros Hu.
  destruct (take_hex 8 u) as [r1|] eqn:H1; [|discriminate].
  cbn [mbind option_bind] in Hu.
  destruct (take_literal "-" r1) as [r2|] eqn:H2; [|discriminate].
  cbn [mbind option_bind] in Hu.
  destruct (take_hex 4 r2) as [r3|] eqn:H3; [|discriminate].
  cbn [mbind option_bind] in Hu.
  destruct (take_literal "-" r3) as [r4|] eqn:H4; [|discriminate].
  cbn [mbind option_bind] in Hu.
  destruct (take_hex 4 r4) as [r5|] eqn:H5; [|discriminate].
  cbn [mbind option_bind] in Hu.
  destruct (take_literal "-" r5) as [r6|] eqn:H6; [|discriminate].
  cbn [mbind option_bind] in Hu.
  destruct (take_hex 4 r6) as [r7|] eqn:H7; [|discriminate].
  cbn [mbind option_bind] in Hu.
  destruct (take_literal "-" r7) as [r8|] eqn:H8; [|discriminate].
  cbn [mbind option_bind] in Hu.
  destruct (take_hex 12 r8) as [r9|] eqn:H9; [|discriminate].
  destruct r9; [|discriminate].
  change 32%nat with (8 + (4 + (4 + (4 + (12 + 0)))))%nat.
  apply (take_hex_replaceAll _ _ _ _ _ _ H1).
  rewrite (take_dash_replaceAll _ _ H2).
  apply (take_hex_replaceAll _ _ _ _ _ _ H3).
  rewrite (take_dash_replaceAll _ _ H4).
  apply (take_hex_replaceAll _ _ _ _ _ _ H5).
  rewrite (take_dash_replaceAll _ _ H6).
  apply (take_hex_replaceAll _ _ _ _ _ _ H7).
  rewrite (take_dash_replaceAll _ _ H8).
  apply (take_hex_replaceAll _ _ _ _ _ _ H9).
  reflexivity.
Qed.

Lemma health_file_name_matches (u : string) :
  is_uuid u = true →
  matches_health_file_name (health_file_name (replaceAll "-" "" u)) = true.
Proof.
  intros Hu. unfold matches_health_file_name, health_file_name, sequence.
  cbn [foldl mbind option_bind].
  change (take_literal "health-" ("health-" +:+ ?x)) with (Some x).
  cbn [mbind option_bind].
  rewrite (uuid_without_dashes u ".yaml" Hu). reflexivity.
Qed.

(** ** Sessions *)

Lemma setStatus_world (s : string) (this : HealthReporter) (w : World) :
  writes (setStatus s this w).2 = writes w
  ∧ hr_reads (setStatus s this w).2 = hr_reads w
  ∧ timers (setStatus s this w).2 = timers w.
Proof.
  destruct (VALID_CODES !! s) as [m|] eqn:Hs.
  - rewrite setStatus_known by eauto. destruct (_ && _); cbn; auto.
  - rewrite setStatus_unknown by assumption. cbn. auto.
Qed.

Lemma setStatus_fields (s : string) (this : HealthReporter) (w : World) :
  destFile (setStatus s this w).1 = destFile this
  ∧ startTime (setStatus s this w).1 = startTime this
  ∧ interval (setStatus s this w).1 = interval this.
Proof.
  destruct (VALID_CODES !! s) as [m|] eqn:Hs.
  - rewrite setStatus_known by eauto. destruct (_ && _); cbn; auto.
  - rewrite setStatus_unknown by assumption. cbn. auto.
Qed.

Section session_facts.
Context `{Platform}.

Lemma healthCheck_world (this : HealthReporter) (w : World) :
  writes (healthCheck this w).2 = writes w ++
    [{| file := destFile this;
        data := join newline
          (status_lines (bool_decide (status this = STATUS_HEALTHY))
             (VALID_CODES !! status this) (status this) (startTime this)
             (Number_of_bigint (hrtime (hr_reads w))));
        encoding := "utf8"; callback := healthCheck_callback |}]
  ∧ hr_reads (healthCheck this w).2 = S (hr_reads w)
  ∧ logs (healthCheck this w).2 = logs w
  ∧ timers (healthCheck this w).2 = timers w.
Proof.
  unfold healthCheck, mbind, M_bind, mret, M_ret. cbv zeta.
  rewrite writeStatus_eq. cbn. auto.
Qed.

(** Only [setStatus] changes a field of the instance, and only [status]. *)
Lemma call_fields (c : Call) (this : HealthReporter) (w : World) :
  destFile (call c this w).1 = destFile this
  ∧ startTime (call c this w).1 = startTime this
  ∧ interval (call c this w).1 = interval this.
Proof.
  destruct c; cbn [call].
  - rewrite healthCheck_this. auto.
  - apply setStatus_fields.
  - rewrite stop_this. auto.
Qed.

Lemma run_cons (c : Call) (cs : list Call) (this : HealthReporter) (w : World) :
  run (c :: cs) this w = run cs (call c this w).1 (call c this w).2.
Proof. reflexivity. Qed.

Lemma run_fields (cs : list Call) (this : HealthReporter) (w : World) :
  destFile (run cs this w).1 = destFile this
  ∧ startTime (run cs this w).1 = startTime this
  ∧ interval (run cs this w).1 = interval this.
Proof.
  revert this w. induction cs as [|c cs IH]; intros this w; [cbn; auto|].
  rewrite run_cons.
  destruct (IH (call c this w).1 (call c this w).2) as (-> & -> & ->).
  apply call_fields.
Qed.

Lemma session_eq (env : ProcessEnv) (cs : list Call) (w : World) :
  session env cs w = run cs (constructor env w).1 (constructor env w).2.
Proof. reflexivity. Qed.

End session_facts.

(** C5: the timer is started only by a construction that goes through; for
    the instance such a construction yields, whatever calls it has served
    since, a tick asks for one write: to the output directory joined with a
    name that matches [health-[0-9a-f]{32}\.yaml], of the five lines
    [healthy], [status], [last_error], [start_time_unix_nano] and
    [status_time_unix_nano] joined by new lines (none after the last), where
    [healthy] is [true] exactly for the healthy code, [status] is the quoted
    message of the current code in the table and [last_error] the current
    code. *)
Theorem tick_writes_health_file `{Platform}
    (env : ProcessEnv) (outDir : string) (cs : list Call) (w : World) :
  falsy (NEW_RELIC_SUPERAGENT_FLEET_ID env) = false →
  NEW_RELIC_SUPERAGENT_HEALTH_DELIVERY_LOCATION env = Some outDir →
  is_uuid (randomUUID (uuid_draws w)) = true →
  let r := session env cs w in
  let this := r.1 in
  ∃ name msg,
    matches_health_file_name name = true ∧
    destFile this = Some (path_join outDir name) ∧
    VALID_CODES !! status this = Some msg ∧
    (healthCheck this r.2).1 = this ∧
    writes (healthCheck this r.2).2 = writes r.2 ++
      [{| file := Some (path_join outDir name);
          data := join newline
            [ "healthy: " +:+
                (if bool_decide (status this = STATUS_HEALTHY)
                 then "true" else "false");
              "status: '" +:+ msg +:+ "'";
              "last_error: " +:+ status this;
              "start_time_unix_nano: " +:+
                Number_toString (Number_of_bigint (hrtime (hr_reads w)));
              "status_time_unix_nano: " +:+
                Number_toString (Number_of_bigint (hrtime (hr_reads r.2))) ];
          encoding := "utf8"; callback := healthCheck_callback |}].
Proof.
  intros Hfleet HoutDir Huuid. cbv zeta.
  destruct (run_valid cs (constructor env w).1 (constructor env w).2)
    as [msg Hmsg].
  { unfold valid. rewrite constructor_status. exact healthy_known. }
  destruct (run_fields cs (constructor env w).1 (constructor env w).2)
    as (Hdest & Hstart & _).
  rewrite <- session_eq in Hmsg, Hdest, Hstart.
  rewrite (constructor_complete env outDir w Hfleet HoutDir) in Hdest, Hstart.
  cbn [fst destFile startTime] in Hdest, Hstart.
  exists (health_file_name (replaceAll "-" "" (randomUUID (uuid_draws w)))), msg.
  split; [apply health_file_name_matches, Huuid|].
  split; [exact Hdest|]. split; [exact Hmsg|].
  split; [apply healthCheck_this|].
  destruct (healthCheck_world (session env cs w).1 (session env cs w).2)
    as (-> & _).
  rewrite Hdest, Hstart, Hmsg. reflexivity.
Qed.

Lemma tick_writes_health_file_witness :
  let r := @session test_platform test_env
             [SetStatus STATUS_BACKEND_ERROR] world0 in
  matches_health_file_name "health-123e4567e89b42d3a456426614174000.yaml" = true ∧
  map data (writes (@healthCheck test_platform r.1 r.2).2) =
    [join newline
       [ "healthy: false";
         "status: 'HTTP error communicating with New Relic.'";
         "last_error: NR-APM-004"; "start_time_unix_nano: 1";
         "status_time_unix_nano: 2" ]].
Proof.
  cbv zeta.
  destruct (@tick_writes_health_file test_platform test_env "/tmp"
              [SetStatus STATUS_BACKEND_ERROR] world0
              eq_refl eq_refl eq_refl)
    as (name & msg & Hname & Hdest & Hmsg & _ & Hwrites).
  split; [reflexivity|].
  rewrite Hwrites. vm_compute in Hmsg. injection Hmsg as <-.
  vm_compute. reflexivity.
Defined.

(** ** Rounding to a double is monotone *)

Lemma round53_pos_small (a : Z) : a < 2 ^ 53 → round53_pos a = a.
Proof.
  intros Ha. unfold round53_pos.
  destruct (Z.ltb_spec a (2 ^ 53)); [reflexivity | lia].
Qed.

(** The shape of the rounding of a large integer: a quotient [q'] of 53 or
    54 bits, scaled back by the bits that were dropped. *)
Lemma round53_pos_large (a : Z) :
  2 ^ 53 ≤ a →
  let e := Z.log2 a - 52 in
  let q := a / 2 ^ e in
  let r := a mod 2 ^ e in
  1 ≤ e ∧ 0 < 2 ^ e ∧ a = q * 2 ^ e + r ∧ 0 ≤ r < 2 ^ e ∧
  2 ^ 52 ≤ q < 2 ^ 53 ∧
  2 ^ Z.log2 a = 2 ^ 52 * 2 ^ e ∧
  (round53_pos a = q * 2 ^ e ∨ round53_pos a = (q + 1) * 2 ^ e) ∧
  (round53_pos a = q * 2 ^ e →
   r < 2 ^ (e - 1) ∨ (r = 2 ^ (e - 1) ∧ Z.odd q = false)) ∧
  (round53_pos a = (q + 1) * 2 ^ e →
   2 ^ (e - 1) < r ∨ (r = 2 ^ (e - 1) ∧ Z.odd q = true)).
Proof.
  intros Ha. cbv zeta.
  assert (Hpos : 0 < a) by lia.
  pose proof (Z.log2_spec a Hpos) as [Hlo Hhi].
  assert (HL : 53 ≤ Z.log2 a).
  { apply Z.log2_le_pow2; [lia | exact Ha]. }
  set (e := Z.log2 a - 52) in *.
  assert (He : 1 ≤ e) by lia.
  assert (Hpe : 0 < 2 ^ e) by (apply Z.pow_pos_nonneg; lia).
  assert (Hsplit : 2 ^ Z.log2 a = 2 ^ 52 * 2 ^ e).
  { rewrite <- Z.pow_add_r by lia. f_equal. lia. }
  assert (Hsplit' : 2 ^ Z.succ (Z.log2 a) = 2 ^ 53 * 2 ^ e).
  { rewrite <- Z.pow_add_r by lia. f_equal. lia. }
  pose proof (Z.div_mod a (2 ^ e) ltac:(lia)) as Hdm.
  pose proof (Z.mod_pos_bound a (2 ^ e) Hpe) as Hr.
  assert (Hq : 2 ^ 52 ≤ a / 2 ^ e < 2 ^ 53).
  { split.
    - apply Z.div_le_lower_bound; lia.
    - apply Z.div_lt_upper_bound; lia. }
  split; [exact He|]. split; [exact Hpe|]. split; [lia|].
  split; [exact Hr|]. split; [exact Hq|]. split; [exact Hsplit|].
  unfold round53_pos.
  destruct (Z.ltb_spec a (2 ^ 53)) as [Hlt|_]; [lia|].
  fold e.
  destruct (Z.ltb_spec (2 ^ (e - 1)) (a mod 2 ^ e)) as [Hhalf|Hhalf];
    cbn [orb].
  - split; [right; reflexivity|]. split; [|auto].
    intros Heq. exfalso. nia.
  - destruct (Z.eqb_spec (a mod 2 ^ e) (2 ^ (e - 1))) as [Heq|Hne];
      cbn [andb].
    + destruct (Z.odd (a / 2 ^ e)) eqn:Hodd.
      * split; [right; reflexivity|]. split; [|auto].
        intros Heq'. exfalso. nia.
      * split; [left; reflexivity|]. split; [auto|].
        intros Heq'. exfalso. nia.
    + split; [left; reflexivity|]. split; [intros _; left; lia|].
      intros Heq'. exfalso. nia.
Qed.

Lemma round53_pos_bounds (a : Z) :
  2 ^ 53 ≤ a → 2 ^ Z.log2 a ≤ round53_pos a ≤ 2 ^ Z.succ (Z.log2 a).
Proof.
  intros Ha.
  destruct (round53_pos_large a Ha)
    as (He & Hpe & _ & _ & Hq & Hsplit & Hround & _).
  assert (Hsplit' : 2 ^ Z.succ (Z.log2 a) = 2 * 2 ^ Z.log2 a).
  { rewrite Z.pow_succ_r; [reflexivity|]. apply Z.log2_nonneg. }
  rewrite Hsplit', Hsplit.
  destruct Hround as [-> | ->]; nia.
Qed.

Lemma round53_pos_mono (a b : Z) :
  0 ≤ a → a ≤ b → round53_pos a ≤ round53_pos b.
Proof.
  intros Ha Hab.
  destruct (Z.lt_ge_cases a (2 ^ 53)) as [Hsa|Hla].
  - rewrite (round53_pos_small a Hsa).
    destruct (Z.lt_ge_cases b (2 ^ 53)) as [Hsb|Hlb].
    + rewrite (round53_pos_small b Hsb). exact Hab.
    + pose proof (round53_pos_bounds b Hlb) as [Hlo _].
      assert (2 ^ 53 ≤ 2 ^ Z.log2 b).
      { apply Z.pow_le_mono_r; [lia|]. apply Z.log2_le_pow2; lia. }
      lia.
  - assert (Hlb : 2 ^ 53 ≤ b) by lia.
    pose proof (Z.log2_le_mono a b Hab) as Hlog.
    destruct (Z.eq_dec (Z.log2 a) (Z.log2 b)) as [Heq|Hne].
    + destruct (round53_pos_large a Hla)
        as (_ & Hpe & Hda & Hra & _ & _ & Hrounda & Hdowna & Hupa).
      destruct (round53_pos_large b Hlb)
        as (_ & _ & Hdb & Hrb & _ & _ & Hroundb & Hdownb & Hupb).
      rewrite <- Heq in *.
      set (p := 2 ^ (Z.log2 a - 52)) in *.
      set (h := 2 ^ (Z.log2 a - 52 - 1)) in *.
      set (qa := a / p) in *. set (qb := b / p) in *.
      set (ra := a mod p) in *. set (rb := b mod p) in *.
      assert (Hq : qa ≤ qb) by (apply Z.div_le_mono; lia).
      destruct (Z.eq_dec qa qb) as [Hqq|Hqq].
      * (* same quotient: the remainders decide *)
        rewrite Hqq in Hda, Hrounda, Hdowna, Hupa.
        assert (Hrr : ra ≤ rb) by lia.
        destruct Hrounda as [Ea|Ea]; destruct Hroundb as [Eb|Eb];
          rewrite ?Ea, ?Eb; try lia.
        specialize (Hupa Ea). specialize (Hdownb Eb).
        destruct Hupa as [?|[? ?]], Hdownb as [?|[? ?]];
          try lia; congruence.
      * (* a smaller quotient rounds to at most the larger one *)
        assert (Hq1 : qa + 1 ≤ qb) by lia.
        assert (Hup : round53_pos a ≤ (qa + 1) * p).
        { destruct Hrounda as [-> | ->]; lia. }
        assert (Hdown : qb * p ≤ round53_pos b).
        { destruct Hroundb as [-> | ->]; lia. }
        assert ((qa + 1) * p ≤ qb * p).
        { apply Z.mul_le_mono_nonneg_r; lia. }
        lia.
    + pose proof (round53_pos_bounds a Hla) as [_ Hhi].
      pose proof (round53_pos_bounds b Hlb) as [Hlo _].
      assert (2 ^ Z.succ (Z.log2 a) ≤ 2 ^ Z.log2 b).
      { apply Z.pow_le_mono_r; lia. }
      lia.
Qed.

Lemma round53_nonneg (a : Z) : 0 ≤ a → round53 a = round53_pos a.
Proof.
  intros Ha. unfold round53.
  destruct (Z.eq_dec a 0) as [->|Hne]; [reflexivity|].
  rewrite Z.sgn_pos by lia. rewrite Z.abs_eq by lia. lia.
Qed.

Lemma Number_of_bigint_mono (a b : N) :
  (a ≤ b)%N → Number_le (Number_of_bigint a) (Number_of_bigint b).
Proof.
  intros Hab. unfold Number_of_bigint, Number_le.
  rewrite !round53_nonneg by lia.
  apply round53_pos_mono; lia.
Qed.

(** ** The time stamps of the records *)

Section timestamps.
Context `{Platform}.

(** The data written during a run: one record per write, each with the
    start time of the instance and the next reading of the clock. *)
Lemma run_writes (cs : list Call) (this : HealthReporter) (w : World) :
  ∃ recs : list (bool * option string * string),
    map data (writes (run cs this w).2) = map data (writes w) ++
      imap (λ k '(healthy, msg, code),
              join newline
                (status_lines healthy msg code (startTime this)
                   (Number_of_bigint (hrtime (hr_reads w + k))))) recs.
Proof.
  revert this w. induction cs as [|c cs IH]; intros this w.
  - exists []. cbn. rewrite app_nil_r. reflexivity.
  - rewrite run_cons.
    destruct (IH (call c this w).1 (call c this w).2) as [recs Hrecs].
    destruct (call_fields c this w) as (_ & Hstart & _).
    rewrite Hstart in Hrecs. rewrite Hrecs. clear Hrecs IH.
    assert (Hone : ∀ rec w',
      map data (writes w') = map data (writes w) ++
        [(let '(healthy, msg, code) := rec in
          join newline
            (status_lines healthy msg code (startTime this)
               (Number_of_bigint (hrtime (hr_reads w)))))] →
      hr_reads w' = S (hr_reads w) →
      ∃ recs0 : list (bool * option string * string),
        map data (writes w') ++
          imap (λ k '(healthy, msg, code),
                  join newline
                    (status_lines healthy msg code (startTime this)
                       (Number_of_bigint (hrtime (hr_reads w' + k))))) recs =
        map data (writes w) ++
          imap (λ k '(healthy, msg, code),
                  join newline
                    (status_lines healthy msg code (startTime this)
                       (Number_of_bigint (hrtime (hr_reads w + k))))) recs0).
    { intros rec w' Hw Hr. exists (rec :: recs).
      rewrite Hw, Hr, <- app_assoc. f_equal. cbn [imap app].
      rewrite Nat.add_0_r. f_equal.
      apply imap_ext. intros k [[healthy msg] code] _. cbn.
      rewrite Nat.add_succ_r. reflexivity. }
    destruct c; cbn [call].
    + destruct (healthCheck_world this w) as (Hw & Hr & _).
      apply (Hone (bool_decide (status this = STATUS_HEALTHY),
                   VALID_CODES !! status this, status this)); [|exact Hr].
      rewrite Hw, map_app. reflexivity.
    + destruct (setStatus_world s this w) as (-> & -> & _).
      exists recs. reflexivity.
    + destruct (stop_world this w) as (Hw & Hr & _).
      apply (Hone (bool_decide (status this = STATUS_HEALTHY),
                   VALID_CODES !!
                     (if bool_decide (status this = STATUS_HEALTHY)
                      then STATUS_AGENT_SHUTDOWN else status this),
                   if bool_decide (status this = STATUS_HEALTHY)
                   then STATUS_AGENT_SHUTDOWN else status this)); [|exact Hr].
      rewrite Hw, map_app. reflexivity.
Qed.

End timestamps.

(** C8: with a monotonic clock, every record written for an instance (by a
    tick or by [stop]) carries the start time read once by the constructor,
    the [k]-th record carries the [k]-th clock reading taken after that one,
    and these readings, as Numbers, never decrease. *)
Theorem timestamps_of_an_instance `{Platform}
    (env : ProcessEnv) (outDir : string) (cs : list Call) (w : World) :
  (∀ i j : nat, (i ≤ j)%nat → (hrtime i ≤ hrtime j)%N) →
  falsy (NEW_RELIC_SUPERAGENT_FLEET_ID env) = false →
  NEW_RELIC_SUPERAGENT_HEALTH_DELIVERY_LOCATION env = Some outDir →
  let r := session env cs w in
  let start := Number_of_bigint (hrtime (hr_reads w)) in
  let time (k : nat) := Number_of_bigint (hrtime (S (hr_reads w) + k)) in
  startTime r.1 = Some start ∧
  (∃ recs : list (bool * option string * string),
     map data (writes r.2) = map data (writes w) ++
       imap (λ k '(healthy, msg, code),
               join newline
                 (status_lines healthy msg code (Some start) (time k)))
            recs) ∧
  (∀ i j : nat, (i ≤ j)%nat →
     Number_le start (time i) ∧ Number_le (time i) (time j)).
Proof.
  intros Hclock Hfleet HoutDir. cbv zeta. rewrite session_eq.
  split; [|split].
  - destruct (run_fields cs (constructor env w).1 (constructor env w).2)
      as (_ & -> & _).
    rewrite (constructor_complete env outDir w Hfleet HoutDir). reflexivity.
  - destruct (run_writes cs (constructor env w).1 (constructor env w).2)
      as [recs Hrecs].
    exists recs. rewrite Hrecs.
    rewrite (constructor_complete env outDir w Hfleet HoutDir). reflexivity.
  - intros i j Hij.
    split; apply Number_of_bigint_mono, Hclock; lia.
Qed.

Lemma timestamps_of_an_instance_witness :
  map data (writes (@session test_platform test_env
                      [Tick; SetStatus STATUS_BACKEND_ERROR; Tick; Stop]
                      world0).2) =
  [ join newline
      [ "healthy: true"; "status: 'Healthy.'"; "last_error: NR-APM-000";
        "start_time_unix_nano: 1"; "status_time_unix_nano: 2" ];
    join newline
      [ "healthy: false";
        "status: 'HTTP error communicating with New Relic.'";
        "last_error: NR-APM-004";
        "start_time_unix_nano: 1"; "status_time_unix_nano: 3" ];
    join newline
      [ "healthy: false";
        "status: 'HTTP error communicating with New Relic.'";
        "last_error: NR-APM-004";
        "start_time_unix_nano: 1"; "status_time_unix_nano: 4" ] ] ∧
  Number_le (Number_of_bigint (@hrtime test_platform 1))
            (Number_of_bigint (@hrtime test_platform 3)).
Proof.
  destruct (@timestamps_of_an_instance test_platform test_env "/tmp"
              [Tick; SetStatus STATUS_BACKEND_ERROR; Tick; Stop] world0)
    as (_ & _ & Hmono).
  - intros i j Hij. cbn. lia.
  - reflexivity.
  - reflexivity.
  - split; [vm_compute; reflexivity|].
    exact (proj2 (Hmono 0%nat 2%nat ltac:(lia))).
Defined.

(** * Further properties of the health reporter *)

Section call_effects.
Context `{Platform}.

(** The whole effect of a tick. *)
Lemma healthCheck_full (this : HealthReporter) (w : World) :
  healthCheck this w =
  (this,
   {| hr_reads := S (hr_reads w); uuid_draws := uuid_draws w;
      next_timer := next_timer w; timers := timers w; unrefd := unrefd w;
      logs := logs w;
      writes := writes w ++
        [{| file := destFile this;
            data := join newline
              (status_lines (bool_decide (status this = STATUS_HEALTHY))
                 (VALID_CODES !! status this) (status this) (startTime this)
                 (Number_of_bigint (hrtime (hr_reads w))));
            encoding := "utf8"; callback := healthCheck_callback |}] |}).
Proof.
  unfold healthCheck, mbind, M_bind, mret, M_ret. cbv zeta.
  rewrite writeStatus_eq. reflexivity.
Qed.

(** The whole effect of [stop]. *)
Lemma stop_full (this : HealthReporter) (w : World) :
  let healthy := bool_decide (status this = STATUS_HEALTHY) in
  let code := if healthy then STATUS_AGENT_SHUTDOWN else status this in
  stop this w =
  (this,
   {| hr_reads := S (hr_reads w); uuid_draws := uuid_draws w;
      next_timer := next_timer w;
      timers := match interval this with
                | Some t => delete t (timers w)
                | None => timers w
                end;
      unrefd := unrefd w; logs := logs w;
      writes := writes w ++
        [{| file := destFile this;
            data := join newline
              (status_lines healthy (VALID_CODES !! code) code
                 (startTime this) (Number_of_bigint (hrtime (hr_reads w))));
            encoding := "utf8"; callback := stop_callback |}] |}).
Proof.
  cbv zeta. destruct w. unfold stop, writeStatus. run_M.
  destruct (interval this), (bool_decide _); reflexivity.
Qed.

(** What a call leaves alone, and what it adds. *)
Lemma call_effect (c : Call) (this : HealthReporter) (w : World) :
  let w' := (call c this w).2 in
  uuid_draws w' = uuid_draws w ∧ next_timer w' = next_timer w ∧
  unrefd w' = unrefd w ∧
  hr_reads w' = ((if writes_file c then 1 else 0) + hr_reads w)%nat ∧
  timers w' =
    (if is_stop c
     then match interval this with
          | Some t => delete t (timers w)
          | None => timers w
          end
     else timers w) ∧
  ∃ fw, file fw = destFile this ∧ encoding fw = "utf8" ∧
        writes w' = writes w ++ (if writes_file c then [fw] else []).
Proof.
  cbv zeta. destruct c as [|s|]; cbn [call writes_file is_stop].
  - rewrite healthCheck_full.
    cbn [snd uuid_draws next_timer unrefd hr_reads timers writes].
    repeat apply conj; try reflexivity.
    eexists. repeat apply conj; [| |reflexivity]; reflexivity.
  - assert (Hsame : ∀ w', uuid_draws w' = uuid_draws w →
        next_timer w' = next_timer w → unrefd w' = unrefd w →
        hr_reads w' = hr_reads w → timers w' = timers w →
        writes w' = writes w →
        uuid_draws w' = uuid_draws w ∧ next_timer w' = next_timer w ∧
        unrefd w' = unrefd w ∧ hr_reads w' = (0 + hr_reads w)%nat ∧
        timers w' = timers w ∧
        ∃ fw, file fw = destFile this ∧ encoding fw = "utf8" ∧
              writes w' = writes w ++ []).
    { intros w' ? ? ? ? ? Hw. repeat apply conj; try assumption.
      exists {| file := destFile this; data := ""; encoding := "utf8";
                callback := stop_callback |}.
      rewrite app_nil_r. auto. }
    destruct (VALID_CODES !! s) as [m|] eqn:Hs.
    + rewrite setStatus_known by eauto.
      destruct (_ && _); apply Hsame; reflexivity.
    + rewrite setStatus_unknown by assumption. apply Hsame; reflexivity.
  - pose proof (stop_full this w) as Hs. cbv zeta in Hs. rewrite Hs.
    cbn [snd uuid_draws next_timer unrefd hr_reads timers writes].
    repeat apply conj; try reflexivity.
    eexists. repeat apply conj; [| |reflexivity]; reflexivity.
Qed.

End call_effects.

(** X1: every call of a session counts. An instance whose construction went
    through issues exactly one write per tick and per [stop] and none for
    [setStatus]; all of them go to the one destination computed by the
    constructor, with the encoding utf8; the clock is read once by the
    constructor and once per write, and one UUID is drawn in all. *)
Theorem session_writes_one_file `{Platform}
    (env : ProcessEnv) (outDir : string) (cs : list Call) (w : World) :
  falsy (NEW_RELIC_SUPERAGENT_FLEET_ID env) = false →
  NEW_RELIC_SUPERAGENT_HEALTH_DELIVERY_LOCATION env = Some outDir →
  let r := session env cs w in
  let dest :=
    path_join outDir
      (health_file_name (replaceAll "-" "" (randomUUID (uuid_draws w)))) in
  destFile r.1 = Some dest ∧
  uuid_draws r.2 = S (uuid_draws w) ∧
  ∃ new : list FileWrite,
    writes r.2 = writes w ++ new ∧
    length new = length (List.filter writes_file cs) ∧
    hr_reads r.2 = (S (hr_reads w) + length new)%nat ∧
    Forall (λ fw, file fw = Some dest ∧ encoding fw = "utf8") new.
Proof.
  intros Hfleet HoutDir. cbv zeta. rewrite session_eq.
  assert (Hrun : ∀ cs this w0,
    uuid_draws (run cs this w0).2 = uuid_draws w0 ∧
    ∃ new : list FileWrite,
      writes (run cs this w0).2 = writes w0 ++ new ∧
      length new = length (List.filter writes_file cs) ∧
      hr_reads (run cs this w0).2 = (hr_reads w0 + length new)%nat ∧
      Forall (λ fw, file fw = destFile this ∧ encoding fw = "utf8") new).
  { clear. intros cs. induction cs as [|c cs IH]; intros this w0.
    - cbn. split; [reflexivity|]. exists []. rewrite app_nil_r.
      repeat split; auto.
    - rewrite run_cons.
      destruct (IH (call c this w0).1 (call c this w0).2)
        as (Hu & new & Hw & Hlen & Hr & Hall).
      destruct (call_effect c this w0)
        as (Hu0 & _ & _ & Hr0 & _ & fw & Hfile & Henc & Hw0).
      destruct (call_fields c this w0) as (Hdest & _).
      split; [congruence|].
      rewrite Hdest in Hall. rewrite Hw, Hr, Hw0, Hr0.
      cbn [List.filter]. destruct (writes_file c).
      + exists (fw :: new). rewrite <- app_assoc. cbn [app length].
        repeat split; [lia | lia | constructor; auto].
      + exists new. rewrite app_nil_r. cbn. repeat split; auto. }
  destruct (run_fields cs (constructor env w).1 (constructor env w).2)
    as (Hdest & _).
  destruct (Hrun cs (constructor env w).1 (constructor env w).2)
    as (Hu & new & Hw & Hlen & Hr & Hall).
  rewrite (constructor_complete env outDir w Hfleet HoutDir)
    in Hdest, Hu, Hw, Hr, Hall |- *.
  cbn [fst snd destFile uuid_draws writes hr_reads] in *.
  split; [exact Hdest|]. split; [exact Hu|].
  exists new. auto.
Qed.

Lemma session_writes_one_file_witness :
  map file (writes (@session test_platform test_env
                      [Tick; SetStatus "bad-code"; Tick; Stop] world0).2) =
  [ Some "/tmp/health-123e4567e89b42d3a456426614174000.yaml";
    Some "/tmp/health-123e4567e89b42d3a456426614174000.yaml";
    Some "/tmp/health-123e4567e89b42d3a456426614174000.yaml" ].
Proof.
  destruct (@session_writes_one_file test_platform test_env "/tmp"
              [Tick; SetStatus "bad-code"; Tick; Stop] world0
              eq_refl eq_refl)
    as (_ & _ & new & Hw & Hlen & _ & Hall).
  rewrite Hw. cbn [writes world0 app].
  destruct new as [|f1 [|f2 [|f3 [|f4 new]]]]; try discriminate Hlen.
  inversion Hall as [|? ? [H1 _] Hall1]; subst.
  inversion Hall1 as [|? ? [H2 _] Hall2]; subst.
  inversion Hall2 as [|? ? [H3 _] _]; subst.
  cbn [map]. rewrite H1, H2, H3. reflexivity.
Defined.

Section run_timers.
Context `{Platform}.

(** The timers after a run: only a [stop] touches them, and it removes the
    timer of the instance. *)
Lemma run_timers (cs : list Call) (this : HealthReporter) (w : World) :
  next_timer (run cs this w).2 = next_timer w ∧
  unrefd (run cs this w).2 = unrefd w ∧
  interval (run cs this w).1 = interval this ∧
  timers (run cs this w).2 =
    if existsb is_stop cs
    then match interval this with
         | Some t => delete t (timers w)
         | None => timers w
         end
    else timers w.
Proof.
  revert this w. induction cs as [|c cs IH]; intros this w.
  - cbn. auto.
  - rewrite run_cons.
    destruct (IH (call c this w).1 (call c this w).2)
      as (Hn & Hu & Hi & Ht).
    destruct (call_effect c this w) as (_ & Hn0 & Hu0 & _ & Ht0 & _).
    destruct (call_fields c this w) as (_ & _ & Hi0).
    rewrite Hn, Hu, Hi, Ht, Hn0, Hu0, Hi0, Ht0.
    repeat apply conj; try reflexivity.
    cbn [existsb]. destruct (is_stop c); cbn [orb]; [|reflexivity].
    destruct (interval this) as [t|];
      destruct (existsb is_stop cs); try reflexivity.
    apply delete_delete_eq.
Qed.

End run_timers.

(** X2: the life of the timer. A construction that goes through starts
    exactly one timer, with the resolved delay, and marks it as not keeping
    the process alive. The calls that follow leave every other timer alone;
    the timer of the instance keeps running, with its delay, until the
    first [stop], and is gone from then on, however many calls follow. *)
Theorem session_timer `{Platform}
    (env : ProcessEnv) (outDir : string) (cs : list Call) (w : World) :
  falsy (NEW_RELIC_SUPERAGENT_FLEET_ID env) = false →
  NEW_RELIC_SUPERAGENT_HEALTH_DELIVERY_LOCATION env = Some outDir →
  let r := session env cs w in
  let timer := next_timer w in
  let delay :=
    match NEW_RELIC_SUPERAGENT_HEALTH_FREQUENCY env with
    | None => Fin 5000
    | Some s => Number_mul (parseInt s) (Fin 1000)
    end in
  interval r.1 = Some timer ∧
  next_timer r.2 = S timer ∧
  unrefd r.2 = {[timer]} ∪ unrefd w ∧
  timers r.2 !! timer = (if existsb is_stop cs then None else Some delay) ∧
  (∀ other, other ≠ timer → timers r.2 !! other = timers w !! other).
Proof.
  intros Hfleet HoutDir. cbv zeta. rewrite session_eq.
  destruct (run_timers cs (constructor env w).1 (constructor env w).2)
    as (Hn & Hu & Hi & Ht).
  rewrite (constructor_complete env outDir w Hfleet HoutDir)
    in Hn, Hu, Hi, Ht |- *.
  cbn [fst snd interval next_timer unrefd timers] in *.
  rewrite Hn, Hu, Hi, Ht.
  repeat apply conj; try reflexivity.
  - destruct (existsb is_stop cs).
    + apply lookup_delete_eq.
    + apply lookup_insert_eq.
  - intros other Hother. destruct (existsb is_stop cs).
    + rewrite lookup_delete_ne by congruence.
      apply lookup_insert_ne. congruence.
    + apply lookup_insert_ne. congruence.
Qed.

Lemma session_timer_witness :
  timers (@session test_platform test_env [Tick; Tick] world0).2 !! 0%nat
    = Some (Fin 1000) ∧
  timers (@session test_platform test_env [Tick; Stop; Tick; Stop] world0).2
    !! 0%nat = None.
Proof.
  split.
  - destruct (@session_timer test_platform test_env "/tmp" [Tick; Tick]
                world0 eq_refl eq_refl) as (_ & _ & _ & Ht & _).
    exact Ht.
  - destruct (@session_timer test_platform test_env "/tmp"
                [Tick; Stop; Tick; Stop] world0 eq_refl eq_refl)
      as (_ & _ & _ & Ht & _).
    exact Ht.
Defined.

(** X3: a failure code survives the shutdown. Once the status register holds
    a code of the table other than the healthy one, no tick, no [stop], no
    [setStatus] of the shutdown code and no [setStatus] of an unknown string
    changes it, and every record written meanwhile says [healthy: false]
    with that code and its message. *)
Theorem failure_code_survives_shutdown `{Platform}
    (cs : list Call) (this : HealthReporter) (w : World) (msg : string) :
  status this ≠ STATUS_HEALTHY →
  VALID_CODES !! status this = Some msg →
  forallb keeps_failure cs = true →
  let r := run cs this w in
  r.1 = this ∧
  map data (writes r.2) = map data (writes w) ++
    imap (λ k _,
            join newline
              [ "healthy: false";
                "status: '" +:+ msg +:+ "'";
                "last_error: " +:+ status this;
                "start_time_unix_nano: "
                  +:+ number_or_undefined (startTime this);
                "status_time_unix_nano: "
                  +:+ Number_toString
                        (Number_of_bigint (hrtime (hr_reads w + k))) ])
         (List.filter writes_file cs).
Proof.
  intros Hst Hmsg. cbv zeta. revert w.
  induction cs as [|c cs IH]; intros w Hcs.
  - cbn. rewrite app_nil_r. auto.
  - cbn [forallb] in Hcs. apply andb_prop in Hcs as [Hc Hcs].
    rewrite run_cons.
    assert (Hthis : (call c this w).1 = this).
    { destruct c as [|s|]; cbn [call].
      - apply healthCheck_this.
      - cbn [keeps_failure] in Hc.
        destruct (VALID_CODES !! s) as [m|] eqn:Hs.
        + rewrite setStatus_known by eauto.
          assert (Hknown : VALID_CODES_has s = true)
            by (apply VALID_CODES_has_true; eauto).
          rewrite Hknown in Hc. cbn [negb] in Hc.
          rewrite orb_false_r in Hc. rewrite Hc.
          rewrite (bool_decide_eq_false_2 _ Hst). reflexivity.
        + rewrite setStatus_unknown by assumption. reflexivity.
      - apply stop_this. }
    rewrite Hthis.
    destruct (IH (call c this w).2 Hcs) as (-> & Hw).
    split; [reflexivity|]. rewrite Hw. clear Hw IH.
    destruct (call_effect c this w) as (_ & _ & _ & Hr & _).
    rewrite Hr. cbn [List.filter].
    destruct c as [|s|]; cbn [call writes_file imap].
    + rewrite healthCheck_full. cbn [snd writes].
      rewrite map_app, <- app_assoc. f_equal. cbn [map app data].
      rewrite (bool_decide_eq_false_2 _ Hst), Hmsg, Nat.add_0_r.
      f_equal. apply imap_ext. intros k c _. cbn.
      rewrite Nat.add_succ_r. reflexivity.
    + destruct (setStatus_world s this w) as (-> & _). reflexivity.
    + pose proof (stop_full this w) as Hs. cbv zeta in Hs. rewrite Hs.
      cbn [snd writes].
      rewrite map_app, <- app_assoc. f_equal. cbn [map app data].
      rewrite (bool_decide_eq_false_2 _ Hst), Hmsg, Nat.add_0_r.
      f_equal. apply imap_ext. intros k c _. cbn.
      rewrite Nat.add_succ_r. reflexivity.
Qed.

Lemma failure_code_survives_shutdown_witness :
  map data
    (writes (@run test_platform
               [SetStatus STATUS_AGENT_SHUTDOWN; Tick; SetStatus "bad-code";
                Stop]
               (set_status STATUS_BACKEND_ERROR fresh) world0).2) =
  [ join newline
      [ "healthy: false";
        "status: 'HTTP error communicating with New Relic.'";
        "last_error: NR-APM-004";
        "start_time_unix_nano: undefined"; "status_time_unix_nano: 1" ];
    join newline
      [ "healthy: false";
        "status: 'HTTP error communicating with New Relic.'";
        "last_error: NR-APM-004";
        "start_time_unix_nano: undefined"; "status_time_unix_nano: 2" ] ].
Proof.
  destruct (@failure_code_survives_shutdown test_platform
              [SetStatus STATUS_AGENT_SHUTDOWN; Tick; SetStatus "bad-code";
               Stop]
              (set_status STATUS_BACKEND_ERROR fresh) world0
              "HTTP error communicating with New Relic.")
    as (_ & Hw).
  - discriminate.
  - reflexivity.
  - reflexivity.
  - rewrite Hw. reflexivity.
Defined.

(** X4: who marks the shutdown decides the [healthy] flag. From the healthy
    code, [stop] alone writes the shutdown code with [healthy: true];
    [setStatus] of the shutdown code followed by [stop] writes the same
    code, message and time stamps with [healthy: false]. *)
Theorem shutdown_code_with_both_flags `{Platform}
    (this : HealthReporter) (w : World) :
  status this = STATUS_HEALTHY →
  let record (healthy : string) :=
    {| file := destFile this;
       data := join newline
         [ "healthy: " +:+ healthy;
           "status: 'Agent has shutdown.'";
           "last_error: NR-APM-099";
           "start_time_unix_nano: " +:+ number_or_undefined (startTime this);
           "status_time_unix_nano: "
             +:+ Number_toString (Number_of_bigint (hrtime (hr_reads w))) ];
       encoding := "utf8"; callback := stop_callback |} in
  writes (run [Stop] this w).2 = writes w ++ [record "true"] ∧
  writes (run [SetStatus STATUS_AGENT_SHUTDOWN; Stop] this w).2 =
    writes w ++ [record "false"] ∧
  logs (run [SetStatus STATUS_AGENT_SHUTDOWN; Stop] this w).2 = logs w.
Proof.
  intros Hst. cbv zeta. rewrite !run_cons. cbn [run call].
  unfold mret, M_ret. cbn [fst snd].
  rewrite setStatus_known by exact shutdown_known.
  rewrite (bool_decide_eq_true_2 _ Hst).
  rewrite bool_decide_eq_true_2 by reflexivity. cbn [andb negb fst snd].
  pose proof (stop_full this w) as H1. cbv zeta in H1. rewrite H1.
  pose proof (stop_full (set_status STATUS_AGENT_SHUTDOWN this) w) as H2.
  cbv zeta in H2. rewrite H2. cbn [snd writes logs].
  rewrite (bool_decide_eq_true_2 _ Hst).
  cbn [status set_status destFile startTime].
  rewrite bool_decide_eq_false_2 by discriminate.
  repeat apply conj; reflexivity.
Qed.

Lemma shutdown_code_with_both_flags_witness :
  map data (writes (@run test_platform [Stop] fresh world0).2) =
    [join newline
       [ "healthy: true"; "status: 'Agent has shutdown.'";
         "last_error: NR-APM-099"; "start_time_unix_nano: undefined";
         "status_time_unix_nano: 1" ]] ∧
  map data (writes (@run test_platform
                      [SetStatus STATUS_AGENT_SHUTDOWN; Stop] fresh world0).2) =
    [join newline
       [ "healthy: false"; "status: 'Agent has shutdown.'";
         "last_error: NR-APM-099"; "start_time_unix_nano: undefined";
         "status_time_unix_nano: 1" ]].
Proof.
  destruct (@shutdown_code_with_both_flags test_platform fresh world0 eq_refl)
    as (H1 & H2 & _).
  rewrite H1, H2. split; reflexivity.
Defined.

(** ** Distinct UUIDs, distinct files *)

(** Two strings that start with [n] hexadecimal digits and agree once the
    dashes are removed start with the same digits. *)
Lemma take_hex_same (n : nat) (s1 s2 r1 r2 t : string) :
  take_hex n s1 = Some r1 → take_hex n s2 = Some r2 →
  replaceAll "-" "" s1 +:+ t = replaceAll "-" "" s2 +:+ t →
  ∃ h, s1 = h +:+ r1 ∧ s2 = h +:+ r2 ∧
       replaceAll "-" "" r1 +:+ t = replaceAll "-" "" r2 +:+ t.
Proof.
  revert s1 s2. induction n as [|n IH]; intros s1 s2 H1 H2 Heq.
  - cbn in H1, H2. injection H1 as ->. injection H2 as ->.
    exists "". auto.
  - destruct s1 as [|c1 s1]; [discriminate|].
    destruct s2 as [|c2 s2]; [discriminate|].
    cbn [take_hex] in H1, H2.
    destruct (is_lower_hex c1) eqn:Hc1; [|discriminate].
    destruct (is_lower_hex c2) eqn:Hc2; [|discriminate].
    cbn [replaceAll] in Heq.
    rewrite (lower_hex_not_dash c1 Hc1), (lower_hex_not_dash c2 Hc2) in Heq.
    change (String ?c ?x +:+ ?y) with (String c (x +:+ y)) in Heq.
    injection Heq as -> Heq.
    destruct (IH s1 s2 H1 H2 Heq) as (h & -> & -> & Hrest).
    exists (String c2 h). auto.
Qed.

Lemma take_dash_eq (s rest : string) :
  take_literal "-" s = Some rest → s = "-" +:+ rest.
Proof.
  destruct s as [|c s]; [discriminate|]. cbn [take_literal].
  destruct (Ascii.eqb_spec "-" c) as [<-|]; [|discriminate].
  intros [= ->]. reflexivity.
Qed.

(** X5: the constructor gives distinct UUIDs distinct file names: removing
    the dashes of two strings in UUID format and wrapping the results in
    [health-] and [.yaml] yields the same name only for the same UUID. *)
Theorem health_file_name_injective (u1 u2 : string) :
  is_uuid u1 = true → is_uuid u2 = true →
  health_file_name (replaceAll "-" "" u1)
    = health_file_name (replaceAll "-" "" u2) →
  u1 = u2.
Proof.
  unfold is_uuid, sequence. cbn [foldl mbind option_bind].
  intros Hu1 Hu2 Hname.
  unfold health_file_name in Hname.
  apply (inj (String.app "health-")) in Hname.
  destruct (take_hex 8 u1) as [a1|] eqn:A1; [|discriminate].
  destruct (take_hex 8 u2) as [b1|] eqn:B1; [|discriminate].
  cbn [mbind option_bind] in Hu1, Hu2.
  destruct (take_literal "-" a1) as [a2|] eqn:A2; [|discriminate].
  destruct (take_literal "-" b1) as [b2|] eqn:B2; [|discriminate].
  cbn [mbind option_bind] in Hu1, Hu2.
  destruct (take_hex 4 a2) as [a3|] eqn:A3; [|discriminate].
  destruct (take_hex 4 b2) as [b3|] eqn:B3; [|discriminate].
  cbn [mbind option_bind] in Hu1, Hu2.
  destruct (take_literal "-" a3) as [a4|] eqn:A4; [|discriminate].
  destruct (take_literal "-" b3) as [b4|] eqn:B4; [|discriminate].
  cbn [mbind option_bind] in Hu1, Hu2.
  destruct (take_hex 4 a4) as [a5|] eqn:A5; [|discriminate].
  destruct (take_hex 4 b4) as [b5|] eqn:B5; [|discriminate].
  cbn [mbind option_bind] in Hu1, Hu2.
  destruct (take_literal "-" a5) as [a6|] eqn:A6; [|discriminate].
  destruct (take_literal "-" b5) as [b6|] eqn:B6; [|discriminate].
  cbn [mbind option_bind] in Hu1, Hu2.
  destruct (take_hex 4 a6) as [a7|] eqn:A7; [|discriminate].
  destruct (take_hex 4 b6) as [b7|] eqn:B7; [|discriminate].
  cbn [mbind option_bind] in Hu1, Hu2.
  destruct (take_literal "-" a7) as [a8|] eqn:A8; [|discriminate].
  destruct (take_literal "-" b7) as [b8|] eqn:B8; [|discriminate].
  cbn [mbind option_bind] in Hu1, Hu2.
  destruct (take_hex 12 a8) as [a9|] eqn:A9; [|discriminate].
  destruct (take_hex 12 b8) as [b9|] eqn:B9; [|discriminate].
  destruct a9; [|discriminate]. destruct b9; [|discriminate].
  destruct (take_hex_same _ _ _ _ _ _ A1 B1 Hname) as (h1 & -> & -> & E1).
  rewrite (take_dash_replaceAll _ _ A2), (take_dash_replaceAll _ _ B2) in E1.
  destruct (take_hex_same _ _ _ _ _ _ A3 B3 E1) as (h2 & E2a & E2b & E2).
  rewrite (take_dash_replaceAll _ _ A4), (take_dash_replaceAll _ _ B4) in E2.
  destruct (take_hex_same _ _ _ _ _ _ A5 B5 E2) as (h3 & E3a & E3b & E3).
  rewrite (take_dash_replaceAll _ _ A6), (take_dash_replaceAll _ _ B6) in E3.
  destruct (take_hex_same _ _ _ _ _ _ A7 B7 E3) as (h4 & E4a & E4b & E4).
  rewrite (take_dash_replaceAll _ _ A8), (take_dash_replaceAll _ _ B8) in E4.
  destruct (take_hex_same _ _ _ _ _ _ A9 B9 E4) as (h5 & E5a & E5b & _).
  apply take_dash_eq in A2, B2, A4, B4, A6, B6, A8, B8.
  congruence.
Qed.

Lemma health_file_name_injective_witness :
  is_uuid "123e4567-e89b-42d3-a456-426614174000" = true ∧
  "123e4567-e89b-42d3-a456-426614174000"
  = "123e4567-e89b-42d3-a456-426614174000".
Proof.
  split; [reflexivity|].
  apply (health_file_name_injective
           "123e4567-e89b-42d3-a456-426614174000"
           "123e4567-e89b-42d3-a456-426614174000"); reflexivity.
Defined.

(** Without the UUID format the dashes matter: two different strings can
    give one name. *)
Example dashes_can_collide :
  health_file_name (replaceAll "-" "" "ab-c")
  = health_file_name (replaceAll "-" "" "a-bc").
Proof. reflexivity. Qed.

(** ** The record has five lines *)

Lemma count_newlines_app (a b : string) :
  count_newlines (a +:+ b) = (count_newlines a + count_newlines b)%nat.
Proof.
  induction a as [|c a IH]; [reflexivity|].
  change (String c a +:+ b) with (String c (a +:+ b)).
  cbn [count_newlines]. rewrite IH. lia.
Qed.

(** No code and no message of the table contains a line break. *)
Lemma VALID_CODES_one_line (code msg : string) :
  VALID_CODES !! code = Some msg →
  count_newlines code = 0%nat ∧ count_newlines msg = 0%nat.
Proof.
  intros Hcode. unfold VALID_CODES in Hcode.
  apply elem_of_list_to_map_2 in Hcode.
  repeat (apply elem_of_cons in Hcode as [[= -> ->]|Hcode];
          [split; reflexivity|]).
  apply elem_of_nil in Hcode. destruct Hcode.
Qed.

Lemma join_five_lines (l1 l2 l3 l4 l5 : string) :
  count_newlines l1 = 0%nat → count_newlines l2 = 0%nat →
  count_newlines l3 = 0%nat → count_newlines l4 = 0%nat →
  count_newlines l5 = 0%nat →
  count_newlines (join newline [l1; l2; l3; l4; l5]) = 4%nat.
Proof.
  intros H1 H2 H3 H4 H5. cbn [join].
  rewrite !count_newlines_app, H1, H2, H3, H4, H5. reflexivity.
Qed.

Section five_lines.
Context `{Platform}.

Lemma status_lines_one_line (healthy : bool) (msg code : string)
    (start : option Number) (now : Number) :
  count_newlines msg = 0%nat → count_newlines code = 0%nat →
  count_newlines (number_or_undefined start) = 0%nat →
  count_newlines (Number_toString now) = 0%nat →
  Forall (λ l, count_newlines l = 0%nat ∧ l ≠ "")
    (status_lines healthy (Some msg) code start now).
Proof.
  intros Hmsg Hcode Hstart Hnow. unfold status_lines.
  repeat constructor; rewrite ?count_newlines_app;
    try discriminate; cbn [string_or_undefined default id];
    rewrite ?Hmsg, ?Hcode, ?Hstart, ?Hnow; try reflexivity.
  destruct healthy; reflexivity.
Qed.

End five_lines.

(** X6: the record is five lines. When the status register holds a code of
    the table and the platform renders the two time stamps without a line
    break, the data that a tick or a [stop] hands to [fs.writeFile] is five
    non-empty lines without a line break, joined by line breaks: it contains
    exactly four of them and does not end with one. *)
Theorem record_has_five_lines `{Platform}
    (c : Call) (this : HealthReporter) (w : World) :
  valid this →
  writes_file c = true →
  count_newlines (number_or_undefined (startTime this)) = 0%nat →
  count_newlines
    (Number_toString (Number_of_bigint (hrtime (hr_reads w)))) = 0%nat →
  ∃ fw lines,
    writes (call c this w).2 = writes w ++ [fw] ∧
    data fw = join newline lines ∧
    length lines = 5%nat ∧
    Forall (λ l, count_newlines l = 0%nat ∧ l ≠ "") lines ∧
    count_newlines (data fw) = 4%nat.
Proof.
  intros [msg Hmsg] Hc Hstart Hnow.
  destruct (VALID_CODES_one_line _ _ Hmsg) as [Hcode1 Hmsg1].
  assert (Hfive : ∀ lines : list string,
    length lines = 5%nat →
    Forall (λ l, count_newlines l = 0%nat ∧ l ≠ "") lines →
    count_newlines (join newline lines) = 4%nat).
  { intros [|l1 [|l2 [|l3 [|l4 [|l5 [|l6 lines]]]]]] Hlen Hall;
      try discriminate Hlen.
    inversion Hall as [|? ? [H1 _] Hall1]; subst.
    inversion Hall1 as [|? ? [H2 _] Hall2]; subst.
    inversion Hall2 as [|? ? [H3 _] Hall3]; subst.
    inversion Hall3 as [|? ? [H4 _] Hall4]; subst.
    inversion Hall4 as [|? ? [H5 _] _]; subst.
    apply join_five_lines; assumption. }
  destruct c as [|s|]; [|discriminate Hc|]; cbn [call].
  - rewrite healthCheck_full. cbn [snd writes]. rewrite Hmsg.
    eexists _, _. split; [reflexivity|]. cbn [data].
    split; [reflexivity|]. split; [reflexivity|].
    assert (Hall := status_lines_one_line
              (bool_decide (status this = STATUS_HEALTHY)) msg (status this)
              (startTime this) _ Hmsg1 Hcode1 Hstart Hnow).
    split; [exact Hall|]. apply Hfive; [reflexivity | exact Hall].
  - pose proof (stop_full this w) as Hs. cbv zeta in Hs. rewrite Hs.
    cbn [snd writes].
    destruct (bool_decide (status this = STATUS_HEALTHY)).
    + eexists _, _. split; [reflexivity|]. cbn [data].
      split; [reflexivity|]. split; [reflexivity|].
      assert (Hall := status_lines_one_line true "Agent has shutdown."
                STATUS_AGENT_SHUTDOWN (startTime this) _
                eq_refl eq_refl Hstart Hnow).
      split; [exact Hall|]. apply Hfive; [reflexivity | exact Hall].
    + rewrite Hmsg.
      eexists _, _. split; [reflexivity|]. cbn [data].
      split; [reflexivity|]. split; [reflexivity|].
      assert (Hall := status_lines_one_line false msg (status this)
                (startTime this) _ Hmsg1 Hcode1 Hstart Hnow).
      split; [exact Hall|]. apply Hfive; [reflexivity | exact Hall].
Qed.

Lemma record_has_five_lines_witness :
  ∃ fw,
    writes (@call test_platform Tick
              (set_status STATUS_CONNECT_ERROR fresh) world0).2 = [fw] ∧
    count_newlines (data fw) = 4%nat.
Proof.
  destruct (@record_has_five_lines test_platform Tick
              (set_status STATUS_CONNECT_ERROR fresh) world0)
    as (fw & lines & Hw & _ & _ & _ & Hcount).
  - vm_compute. eauto.
  - reflexivity.
  - reflexivity.
  - reflexivity.
  - exists fw. split; [exact Hw | exact Hcount].
Defined.

(** * Properties of the tracer provider *)

Section otel.
Import Otel.

Example key_with_defaults :
  tracer_key "http" (default "0.0.0" None) (None ≫= options_schemaUrl)
  = "http@0.0.0:".
Proof. reflexivity. Qed.

(** Without restrictions on the names, two libraries can share a key. *)
Example keys_can_collide :
  tracer_key "a@b" "c" None = tracer_key "a" "b@c" None.
Proof. reflexivity. Qed.

Lemma getTracer_hit (n : string) (v : option string)
    (o : option TracerOptions) (this : NRTracerProvider) (heap : Ref)
    (t : Tracer) :
  tracers this
    !! tracer_key n (default "0.0.0" v) (o ≫= options_schemaUrl) = Some t →
  getTracer n v o this heap = (t, this, heap).
Proof. intros Ht. unfold getTracer. cbv zeta. rewrite Ht. reflexivity. Qed.

(** The tracer a call returns is in the map afterwards, under the key of the
    call. *)
Lemma getTracer_stored (n : string) (v : option string)
    (o : option TracerOptions) (this : NRTracerProvider) (heap : Ref) :
  let r := getTracer n v o this heap in
  tracers r.1.2
    !! tracer_key n (default "0.0.0" v) (o ≫= options_schemaUrl)
  = Some r.1.1.
Proof.
  cbv zeta. unfold getTracer. cbv zeta.
  destruct (tracers this !! _) as [t|] eqn:Ht; cbn [fst snd tracers].
  - exact Ht.
  - apply lookup_insert_eq.
Qed.

(** No request removes or replaces a tracer. *)
Lemma request_keeps_tracers (q : Request) (this : NRTracerProvider)
    (heap : Ref) (k : string) (t : Tracer) :
  tracers this !! k = Some t → tracers (request q this heap).1 !! k = Some t.
Proof.
  intros Hk. destruct q as [n v o|p]; cbn [request fst]; [|exact Hk].
  unfold getTracer. cbv zeta.
  destruct (tracers this !! tracer_key _ _ _) as [t'|] eqn:Ht;
    cbn [fst snd tracers]; [exact Hk|].
  rewrite lookup_insert_ne; [exact Hk|]. congruence.
Qed.

Lemma serve_keeps_tracers (qs : list Request) (this : NRTracerProvider)
    (heap : Ref) (k : string) (t : Tracer) :
  tracers this !! k = Some t → tracers (serve qs this heap).1 !! k = Some t.
Proof.
  revert this heap. induction qs as [|q qs IH]; intros this heap Hk.
  - exact Hk.
  - cbn [serve]. apply IH. apply request_keeps_tracers, Hk.
Qed.

(** X7: a tracer is handed out once and for all. After [getTracer] has
    returned a tracer, every later [getTracer] whose name, version and
    schema URL give the same key returns that same object and changes
    nothing, whatever requests were served in between. The defaults take
    part in the key: an omitted version is [0.0.0], an omitted schema URL is
    the empty string. *)
Theorem getTracer_same_key_same_tracer
    (n1 n2 : string) (v1 v2 : option string) (o1 o2 : option TracerOptions)
    (qs : list Request) (this : NRTracerProvider) (heap : Ref) :
  tracer_key n1 (default "0.0.0" v1) (o1 ≫= options_schemaUrl)
  = tracer_key n2 (default "0.0.0" v2) (o2 ≫= options_schemaUrl) →
  let first := getTracer n1 v1 o1 this heap in
  let later := serve qs first.1.2 first.2 in
  getTracer n2 v2 o2 later.1 later.2 = (first.1.1, later.1, later.2).
Proof.
  intros Hkey. cbv zeta. apply getTracer_hit. rewrite <- Hkey.
  apply serve_keeps_tracers. apply getTracer_stored.
Qed.

Lemma getTracer_same_key_same_tracer_witness :
  let first := getTracer "http" None None (constructor None 0%nat).1 3%nat in
  let later :=
    serve [GetTracer "dns" None None; AddSpanProcessor (Foreign 9%nat)]
      first.1.2 first.2 in
  (getTracer "http" (Some "0.0.0")
     (Some {| options_schemaUrl := Some "" |}) later.1 later.2).1.1
  = first.1.1 ∧
  schemaUrl (instrumentationLibrary first.1.1) = None.
Proof.
  cbv zeta. split; [|reflexivity].
  rewrite (getTracer_same_key_same_tracer "http" "http" None (Some "0.0.0")
             None (Some {| options_schemaUrl := Some "" |})
             [GetTracer "dns" None None; AddSpanProcessor (Foreign 9%nat)]
             (constructor None 0%nat).1 3%nat eq_refl).
  reflexivity.
Defined.

(** ** The invariant of the tracers *)

Lemma request_invariant (q : Request) (this : NRTracerProvider) (heap : Ref) :
  tracers_ok this heap → tracers_distinct this →
  tracers_ok (request q this heap).1 (request q this heap).2 ∧
  tracers_distinct (request q this heap).1 ∧
  provider_ref (request q this heap).1 = provider_ref this ∧
  config (request q this heap).1 = config this ∧
  (heap ≤ (request q this heap).2)%nat.
Proof.
  intros Hok Hdist. destruct q as [n v o|p]; cbn [request fst snd].
  2: { repeat apply conj; auto. }
  unfold getTracer. cbv zeta.
  destruct (tracers this !! tracer_key _ _ _) as [t'|] eqn:Ht;
    cbn [fst snd].
  { repeat apply conj; auto. }
  repeat apply conj; try reflexivity; try lia.
  - intros k t. cbn [tracers provider_ref config].
    rewrite lookup_insert. case_decide as Hk.
    + intros [= <-]. subst k. cbn. repeat apply conj; auto.
    + intros Hkt. destruct (Hok k t Hkt) as (? & ? & ? & ?).
      repeat apply conj; auto.
  - intros k1 k2 t1 t2. cbn [tracers].
    rewrite !lookup_insert.
    case_decide as Hk1; case_decide as Hk2.
    + congruence.
    + intros [= <-] H2 Href. cbn in Href.
      destruct (Hok k2 t2 H2) as (_ & Hlt & _). lia.
    + intros H1 [= <-] Href. cbn in Href.
      destruct (Hok k1 t1 H1) as (_ & Hlt & _). lia.
    + apply Hdist.
Qed.

Lemma serve_invariant (qs : list Request) (this : NRTracerProvider)
    (heap : Ref) :
  tracers_ok this heap → tracers_distinct this →
  tracers_ok (serve qs this heap).1 (serve qs this heap).2 ∧
  tracers_distinct (serve qs this heap).1 ∧
  provider_ref (serve qs this heap).1 = provider_ref this ∧
  config (serve qs this heap).1 = config this ∧
  (heap ≤ (serve qs this heap).2)%nat.
Proof.
  revert this heap. induction qs as [|q qs IH]; intros this heap Hok Hdist.
  - cbn. auto.
  - cbn [serve]. cbv zeta.
    destruct (request_invariant q this heap Hok Hdist)
      as (Hok' & Hdist' & Hp & Hc & Hh).
    destruct (IH _ _ Hok' Hdist') as (? & ? & Hp' & Hc' & Hh').
    repeat apply conj; auto; try congruence. lia.
Qed.

End otel.

Section otel_provider.
Import Otel.

(** X8: the tracers of a provider. However a provider was constructed and
    whatever requests it has served, every tracer it holds is filed under
    the key of the tracer's own library, refers back to this provider and to
    its configuration, and is an object of its own: no two keys share a
    tracer, and none of them is an object that existed before the
    provider. *)
Theorem provider_tracers_invariant
    (cfg : option TracerConfig) (qs : list Request) (heap : Ref) :
  let made := constructor cfg heap in
  let r := serve qs made.1 made.2 in
  provider_ref r.1 = heap ∧
  (∀ k t, tracers r.1 !! k = Some t →
     key_of t = k ∧
     tracerProvider t = provider_ref r.1 ∧
     tracer_config t = config r.1 ∧
     (heap < tracer_ref t < r.2)%nat) ∧
  (∀ k1 k2 t1 t2,
     tracers r.1 !! k1 = Some t1 → tracers r.1 !! k2 = Some t2 →
     tracer_ref t1 = tracer_ref t2 → k1 = k2).
Proof.
  cbv zeta.
  set (made := constructor cfg heap).
  (* a stronger invariant, with the lower bound on the references *)
  assert (Hserve : ∀ qs this h,
    (∀ k t, tracers this !! k = Some t → (heap < tracer_ref t)%nat) →
    (heap < h)%nat →
    ∀ k t, tracers (serve qs this h).1 !! k = Some t →
           (heap < tracer_ref t)%nat).
  { clear. intros qs. induction qs as [|q qs IH]; intros this h Hlow Hh.
    - exact Hlow.
    - cbn [serve]. cbv zeta. apply IH.
      + destruct q as [n v o|p]; cbn [request fst]; [|exact Hlow].
        unfold getTracer. cbv zeta.
        destruct (tracers this !! tracer_key _ _ _) eqn:Ht;
          cbn [fst snd tracers]; [exact Hlow|].
        intros k t. rewrite lookup_insert. case_decide.
        * intros [= <-]. cbn. exact Hh.
        * apply Hlow.
      + destruct q as [n v o|p]; cbn [request snd]; [|exact Hh].
        unfold getTracer. cbv zeta.
        destruct (tracers this !! tracer_key _ _ _); cbn [snd]; lia. }
  assert (Hmade : tracers made.1 = ∅ ∧ provider_ref made.1 = heap ∧
                  (heap < made.2)%nat).
  { unfold made, constructor. destruct cfg; cbn; repeat split; lia. }
  destruct Hmade as (Hempty & Hself & Hheap).
  destruct (serve_invariant qs made.1 made.2) as (Hok & Hdist & Hp & Hc & _).
  { intros k t. rewrite Hempty, lookup_empty. discriminate. }
  { intros k1 k2 t1 t2. rewrite Hempty, lookup_empty. discriminate. }
  split; [congruence|]. split; [|exact Hdist].
  intros k t Hkt. destruct (Hok k t Hkt) as (Hkey & Hlt & Hprov & Hcfg).
  repeat apply conj; auto.
  apply (Hserve qs made.1 made.2) with (k := k); auto.
  intros k' t'. rewrite Hempty, lookup_empty. discriminate.
Qed.

Lemma provider_tracers_invariant_witness :
  let r := serve [GetTracer "http" None None; AddSpanProcessor (Foreign 9%nat);
                  GetTracer "dns" (Some "1.0.0") None]
             (constructor None 0%nat).1 (constructor None 0%nat).2 in
  key_of <$> tracers r.1 !! "dns@1.0.0:" = Some "dns@1.0.0:" ∧
  tracerProvider <$> tracers r.1 !! "dns@1.0.0:" = Some 0%nat.
Proof.
  intros r.
  destruct (provider_tracers_invariant None
              [GetTracer "http" None None; AddSpanProcessor (Foreign 9%nat);
               GetTracer "dns" (Some "1.0.0") None] 0%nat)
    as (Hself & Hok & _).
  cbv zeta in Hself, Hok. fold r in Hself, Hok.
  destruct (tracers r.1 !! "dns@1.0.0:") as [t|] eqn:Ht;
    [|vm_compute in Ht; discriminate Ht].
  destruct (Hok _ _ Ht) as (Hkey & Hprov & _).
  cbn [fmap option_fmap option_map]. rewrite Hkey, Hprov, Hself. auto.
Defined.

(** A provider that was given two processors, and a span that starts and
    ends. *)
Example two_processors :
  let this := (serve [AddSpanProcessor (Foreign 7%nat);
                      GetTracer "http" None None;
                      AddSpanProcessor (Foreign 8%nat)]
                 (constructor None 0%nat).1 (constructor None 0%nat).2).1 in
  (λ active, onEnd active 1%nat (onStart active 1%nat 2%nat []))
    <$> getActiveSpanProcessor this
  = Some [ onStart_call 7%nat 1%nat 2%nat; onStart_call 8%nat 1%nat 2%nat;
           onEnd_call 7%nat 1%nat; onEnd_call 8%nat 1%nat ].
Proof. reflexivity. Qed.

(** ** Keys that cannot collide *)

Lemma split_at_char (c : ascii) (a b x y : string) :
  free_of c a = true → free_of c b = true →
  a +:+ String c x = b +:+ String c y → a = b ∧ x = y.
Proof.
  revert b. induction a as [|d a IH]; intros [|e b] Ha Hb Heq.
  - injection Heq as ->. auto.
  - change (String c x = String e (b +:+ String c y)) in Heq.
    injection Heq as <- _. cbn [free_of] in Hb.
    rewrite Ascii.eqb_refl in Hb. discriminate.
  - change (String d (a +:+ String c x) = String c y) in Heq.
    injection Heq as -> _. cbn [free_of] in Ha.
    rewrite Ascii.eqb_refl in Ha. discriminate.
  - change (String d (a +:+ String c x) = String e (b +:+ String c y))
      in Heq.
    injection Heq as -> Heq. cbn [free_of] in Ha, Hb.
    apply andb_prop in Ha as [_ Ha]. apply andb_prop in Hb as [_ Hb].
    destruct (IH b Ha Hb Heq) as [-> ->]. auto.
Qed.

(** X9: when the names contain no [@] and the versions no [:], the key
    tells the libraries apart: two requests with the same key have the same
    name, the same version and the same schema URL, up to an omitted schema
    URL being the empty one. *)
Theorem tracer_key_injective
    (n1 n2 v1 v2 : string) (s1 s2 : option string) :
  free_of "@" n1 = true → free_of "@" n2 = true →
  free_of ":" v1 = true → free_of ":" v2 = true →
  tracer_key n1 v1 s1 = tracer_key n2 v2 s2 →
  n1 = n2 ∧ v1 = v2 ∧ or_empty s1 = or_empty s2.
Proof.
  intros Hn1 Hn2 Hv1 Hv2 Hkey. unfold tracer_key in Hkey.
  change (n1 +:+ String "@" (v1 +:+ ":" +:+ or_empty s1)
          = n2 +:+ String "@" (v2 +:+ ":" +:+ or_empty s2)) in Hkey.
  destruct (split_at_char _ _ _ _ _ Hn1 Hn2 Hkey) as [-> Hrest].
  change (v1 +:+ String ":" (or_empty s1) = v2 +:+ String ":" (or_empty s2))
    in Hrest.
  destruct (split_at_char _ _ _ _ _ Hv1 Hv2 Hrest) as [-> ->]. auto.
Qed.

Lemma tracer_key_injective_witness :
  free_of "@" "http" = true ∧ free_of ":" "1.2.3" = true ∧
  or_empty None = or_empty (Some "").
Proof.
  split; [reflexivity|]. split; [reflexivity|].
  apply (tracer_key_injective "http" "http" "1.2.3" "1.2.3" None (Some ""));
    reflexivity.
Defined.

(** ** The span processors *)

Lemma MultiSpanProcessor_new_copy (ps : list SpanProcessor) :
  multi_processors (MultiSpanProcessor_new ps) = ps.
Proof.
  unfold MultiSpanProcessor_new. cbn [multi_processors].
  assert (Hgen : ∀ own, foldl (λ own p, own ++ [p]) own ps = own ++ ps).
  { induction ps as [|p ps IH]; intros own; cbn [foldl].
    - rewrite app_nil_r. reflexivity.
    - rewrite IH, <- app_assoc. reflexivity. }
  apply (Hgen []).
Qed.

Lemma serve_processors (qs : list Request) (this : NRTracerProvider)
    (heap : Ref) :
  processors (serve qs this heap).1 = processors this ++ added qs ∧
  (activeProcessor this = Some (MultiSpanProcessor_new (processors this)) →
   activeProcessor (serve qs this heap).1
   = Some (MultiSpanProcessor_new (processors this ++ added qs))).
Proof.
  revert this heap. induction qs as [|q qs IH]; intros this heap.
  - cbn. rewrite app_nil_r. auto.
  - cbn [serve]. cbv zeta.
    destruct (IH (request q this heap).1 (request q this heap).2)
      as [Hps Hactive].
    rewrite Hps. destruct q as [n v o|p]; cbn [request fst snd added omap].
    + assert (Hsame :
        processors (getTracer n v o this heap).1.2 = processors this ∧
        activeProcessor (getTracer n v o this heap).1.2
        = activeProcessor this).
      { unfold getTracer. cbv zeta.
        destruct (tracers this !! tracer_key _ _ _); cbn; auto. }
      destruct Hsame as [Hp Ha]. cbn [request fst] in Hactive.
      rewrite Hp, Ha in Hactive. rewrite Hp. auto.
    + cbn [request fst addSpanProcessor processors activeProcessor]
        in Hactive |- *.
      rewrite <- app_assoc. cbn [app]. split; [reflexivity|].
      intros _. rewrite <- app_assoc in Hactive. apply Hactive. reflexivity.
Qed.

Lemma onStart_calls (ps : list SpanProcessor) (span context : Ref)
    (calls : list ProcessorCall) :
  foldl (SpanProcessor_onStart span context) calls ps
  = calls ++ map (λ p, onStart_call p span context) (foreign ps).
Proof.
  revert calls. induction ps as [|p ps IH]; intros calls; cbn [foldl].
  - cbn. rewrite app_nil_r. reflexivity.
  - rewrite IH. destruct p as [|r]; cbn; [reflexivity|].
    rewrite <- app_assoc. reflexivity.
Qed.

Lemma onEnd_calls (ps : list SpanProcessor) (span : Ref)
    (calls : list ProcessorCall) :
  foldl (SpanProcessor_onEnd span) calls ps
  = calls ++ map (λ p, onEnd_call p span) (foreign ps).
Proof.
  revert calls. induction ps as [|p ps IH]; intros calls; cbn [foldl].
  - cbn. rewrite app_nil_r. reflexivity.
  - rewrite IH. destruct p as [|r]; cbn; [reflexivity|].
    rewrite <- app_assoc. reflexivity.
Qed.

(** X10: the active span processor of a provider. After the construction
    and any requests, the active processor holds the no-op processor
    followed by the processors that were added, in the order they were
    added; its [onStart] and [onEnd] reach every processor of the caller
    exactly once per time it was added, in that order, and asking for
    tracers changes nothing of it. *)
Theorem active_processor_notifies_in_order
    (cfg : option TracerConfig) (qs : list Request) (heap : Ref)
    (span context : Ref) (calls : list ProcessorCall) :
  let made := constructor cfg heap in
  let this := (serve qs made.1 made.2).1 in
  processors this = NoopSpanProcessor :: added qs ∧
  ∃ active,
    getActiveSpanProcessor this = Some active ∧
    multi_processors active = NoopSpanProcessor :: added qs ∧
    onStart active span context calls
    = calls ++ map (λ p, onStart_call p span context) (foreign (added qs)) ∧
    onEnd active span calls
    = calls ++ map (λ p, onEnd_call p span) (foreign (added qs)).
Proof.
  cbv zeta.
  destruct (serve_processors qs (constructor cfg heap).1
              (constructor cfg heap).2) as [Hps Hactive].
  assert (Hmade : processors (constructor cfg heap).1 = [NoopSpanProcessor] ∧
                  activeProcessor (constructor cfg heap).1
                  = Some (MultiSpanProcessor_new [NoopSpanProcessor])).
  { unfold constructor. destruct cfg; cbn; auto. }
  destruct Hmade as [Hps0 Ha0]. rewrite Hps0 in Hps, Hactive.
  specialize (Hactive Ha0). cbn [app] in Hps, Hactive.
  split; [exact Hps|].
  eexists. split; [exact Hactive|].
  unfold onStart, onEnd. rewrite MultiSpanProcessor_new_copy.
  split; [reflexivity|]. rewrite onStart_calls, onEnd_calls.
  split; reflexivity.
Qed.

End otel_provider.

(** * Properties of the datastore shim (lib/shim/datastore-shim.js) *)

Section datastore_collection.
Import Datastore.

Example strip_brackets : strip_collection "[users]" = "users".
Proof. reflexivity. Qed.

Example strip_backquotes : strip_collection "`users`" = "users".
Proof. reflexivity. Qed.

Example strip_short : strip_collection "[]" = "[]".
Proof. reflexivity. Qed.

Example strip_only_quotes : strip_collection "'''" = "'".
Proof. reflexivity. Qed.

Example strip_one_side : strip_collection "users]" = "users".
Proof. reflexivity. Qed.

Lemma length_append (a b : string) :
  String.length (a +:+ b) = (String.length a + String.length b)%nat.
Proof.
  induction a as [|c a IH]; [reflexivity|].
  change (String c a +:+ b) with (String c (a +:+ b)).
  cbn [String.length]. rewrite IH. reflexivity.
Qed.

Lemma last_char_snoc (t : string) (c : ascii) :
  last_char (t +:+ String c "") = Some c.
Proof.
  induction t as [|d t IH]; [reflexivity|].
  change (String d t +:+ String c "") with (String d (t +:+ String c "")).
  cbn [last_char]. rewrite IH.
  destruct (t +:+ String c "") eqn:Ht; [|reflexivity].
  destruct t; discriminate Ht.
Qed.

Lemma drop_last_snoc (t : string) (c : ascii) :
  drop_last (t +:+ String c "") = t.
Proof.
  induction t as [|d t IH]; [reflexivity|].
  change (String d t +:+ String c "") with (String d (t +:+ String c "")).
  cbn [drop_last]. rewrite IH.
  destruct (t +:+ String c "") eqn:Ht; [|reflexivity].
  destruct t; discriminate Ht.
Qed.

(** A string with a last character is the rest followed by it. *)
Lemma last_char_split (s : string) (c : ascii) :
  last_char s = Some c → s = drop_last s +:+ String c "".
Proof.
  induction s as [|d s IH]; [discriminate|].
  destruct s as [|e s].
  - intros [= ->]. reflexivity.
  - intros Hlast. change (last_char (String e s) = Some c) in Hlast.
    change (String d (String e s)
            = String d (drop_last (String e s) +:+ String c "")).
    f_equal. apply IH, Hlast.
Qed.

(** X11: a quoted name is unquoted. A collection that is a name of at least
    one character between one of the opening characters (bracket, brace,
    single quote, double quote, backquote) and one of the closing ones is
    reduced by [parseQuery] to the name, whatever the name contains and
    whether or not the two characters match. *)
Theorem strip_collection_unquotes (opening closing : ascii) (name : string) :
  is_opening opening = true → is_closing closing = true → name ≠ "" →
  strip_collection (String opening (name +:+ String closing "")) = name ∧
  ∀ parser PREFIX record_sql q,
    collection (parser q)
      = str (String opening (name +:+ String closing "")) →
    statement_collection (parseQuery parser PREFIX record_sql q) = str name.
Proof.
  intros Hopen Hclose Hname.
  assert (Hstrip :
    strip_collection (String opening (name +:+ String closing "")) = name).
  { unfold strip_collection. cbn [String.length].
    rewrite length_append. cbn [String.length].
    destruct name as [|c name]; [contradiction|]. cbn [String.length].
    replace (2 <? S (S (String.length name) + 1))%nat with true
      by (symmetry; apply Nat.ltb_lt; lia).
    rewrite Hopen, last_char_snoc, Hclose. apply drop_last_snoc. }
  split; [exact Hstrip|].
  intros parser PREFIX record_sql q Hq. unfold parseQuery. cbv zeta.
  cbn [statement_collection]. rewrite Hq, Hstrip. reflexivity.
Qed.

Lemma strip_collection_unquotes_witness :
  strip_collection "[order's]" = "order's".
Proof.
  apply (strip_collection_unquotes "[" "]" "order's");
    [reflexivity | reflexivity | discriminate].
Defined.

(** X12: the clean-up is careful. It takes away at most one character at
    each end, and only a special one; it leaves names of one or two
    characters alone, and it never turns a name into the empty string. *)
Theorem strip_collection_bounds (s : string) :
  (∃ before after,
     s = before +:+ strip_collection s +:+ after ∧
     (before = "" ∨ ∃ c, before = String c "" ∧ is_opening c = true) ∧
     (after = "" ∨ ∃ c, after = String c "" ∧ is_closing c = true)) ∧
  ((String.length s ≤ 2)%nat → strip_collection s = s) ∧
  (s ≠ "" → strip_collection s ≠ "").
Proof.
  assert (Hnil : ∀ x, x +:+ "" = x).
  { induction x as [|c x IH]; [reflexivity|].
    change (String c x +:+ "") with (String c (x +:+ "")).
    rewrite IH. reflexivity. }
  assert (Hparts : ∃ before after,
     s = before +:+ strip_collection s +:+ after ∧
     (before = "" ∨ ∃ c, before = String c "" ∧ is_opening c = true) ∧
     (after = "" ∨ ∃ c, after = String c "" ∧ is_closing c = true)).
  { unfold strip_collection.
    destruct (Nat.ltb_spec 2 (String.length s)) as [Hlong|Hshort].
    2: { exists "", "". rewrite Hnil. auto. }
    destruct s as [|c rest]; [cbn in Hlong; lia|].
    destruct (is_opening c) eqn:Hc.
    - destruct (last_char rest) as [d|] eqn:Hd.
      + destruct (is_closing d) eqn:Hcl.
        * exists (String c ""), (String d "").
          split; [|split; [right|right]; eauto].
          change (String c rest
                  = String c (drop_last rest +:+ String d "")).
          f_equal. apply last_char_split, Hd.
        * exists (String c ""), "". rewrite Hnil.
          split; [reflexivity|]. split; [right; eauto|left; reflexivity].
      + exists (String c ""), "". rewrite Hnil.
        split; [reflexivity|]. split; [right; eauto|left; reflexivity].
    - destruct (last_char (String c rest)) as [d|] eqn:Hd.
      + destruct (is_closing d) eqn:Hcl.
        * exists "", (String d "").
          split; [|split; [left; reflexivity|right; eauto]].
          apply (last_char_split (String c rest) d Hd).
        * exists "", "". rewrite Hnil. auto.
      + exists "", "". rewrite Hnil. auto. }
  split; [exact Hparts|]. split.
  - intros Hshort. unfold strip_collection.
    destruct (Nat.ltb_spec 2 (String.length s)); [lia|reflexivity].
  - intros Hs Hempty.
    destruct (Nat.le_gt_cases (String.length s) 2) as [Hshort|Hlong].
    + unfold strip_collection in Hempty.
      destruct (Nat.ltb_spec 2 (String.length s)); [lia|]. contradiction.
    + destruct Hparts as (before & after & Heq & Hb & Ha).
      rewrite Hempty in Heq.
      assert (Hlen : String.length s
                     = (String.length before + String.length after)%nat).
      { rewrite Heq at 1. rewrite !length_append. reflexivity. }
      destruct Hb as [->|(c & -> & _)], Ha as [->|(d & -> & _)];
        cbn in Hlen; lia.
Qed.

Lemma strip_collection_bounds_witness :
  strip_collection "[]" = "[]" ∧ strip_collection "'''" ≠ "".
Proof.
  destruct (strip_collection_bounds "[]") as (_ & Hshort & _).
  destruct (strip_collection_bounds "'''") as (_ & _ & Hnonempty).
  split.
  - apply Hshort. cbn. lia.
  - apply Hnonempty. discriminate.
Defined.

End datastore_collection.

Section datastore_parameters.
Import Datastore.
Context `{Platform}.
Variable isLocalhost : Value → bool.

Lemma get_insert_eq (k : string) (v : Value) (o : Object) :
  get k (<[k := v]> o) = v.
Proof. unfold get. rewrite lookup_insert_eq. reflexivity. Qed.

Lemma _normalizeDatabaseName_lookup (c : Config) (o : Object) (k : string) :
  _normalizeDatabaseName c o !! k =
  if decide (k = "database_name") then
    if database_name_reporting_enabled c
    then normal_database_name <$> o !! "database_name"
    else None
  else o !! k.
Proof.
  unfold _normalizeDatabaseName, normal_database_name.
  destruct (database_name_reporting_enabled c); cbn [negb].
  - destruct (o !! "database_name") as [v|] eqn:Hv.
    + destruct (bool_decide (v = boolean false)) eqn:Hf; cbn [negb].
      * destruct (decide (k = "database_name")) as [->|Hk]; [|reflexivity].
        rewrite Hv. cbn. rewrite Hf. reflexivity.
      * rewrite lookup_insert.
        destruct (decide (k = "database_name")) as [->|Hk].
        -- rewrite decide_True by reflexivity. cbn.
           rewrite Hf. reflexivity.
        -- rewrite decide_False by congruence. reflexivity.
    + destruct (decide (k = "database_name")) as [->|Hk]; [|reflexivity].
      rewrite Hv. reflexivity.
  - rewrite lookup_delete.
    destruct (decide (k = "database_name")) as [->|Hk].
    + rewrite decide_True by reflexivity. reflexivity.
    + rewrite decide_False by congruence. reflexivity.
Qed.

Lemma _normalizeInstanceInformation_lookup (c : Config) (o : Object)
    (k : string) :
  _normalizeInstanceInformation isLocalhost c o !! k =
  if decide (k = "host") then
    if instance_reporting_enabled c
    then normal_host isLocalhost c <$> o !! "host"
    else None
  else if decide (k = "port_path_or_id") then
    if instance_reporting_enabled c
    then normal_port <$> o !! "port_path_or_id"
    else None
  else o !! k.
Proof.
  unfold _normalizeInstanceInformation, normal_host, normal_port.
  destruct (instance_reporting_enabled c); cbn [negb].
  2: { rewrite !lookup_delete.
       destruct (decide (k = "host")) as [->|Hh].
       - rewrite decide_False by discriminate.
         rewrite decide_True by reflexivity. reflexivity.
       - destruct (decide (k = "port_path_or_id")) as [->|Hp].
         + rewrite decide_True by reflexivity. reflexivity.
         + rewrite !decide_False by congruence. reflexivity. }
  cbv zeta.
  set (o1 := match o !! "port_path_or_id" with
             | Some port =>
                 <["port_path_or_id" :=
                     str (String_of (or_else port (str INSTANCE_UNKNOWN)))]> o
             | None => o
             end).
  assert (Hhost : o1 !! "host" = o !! "host").
  { unfold o1. destruct (o !! "port_path_or_id"); [|reflexivity].
    apply lookup_insert_ne. discriminate. }
  assert (Hport : o1 !! "port_path_or_id"
                  = (λ port, str (String_of (or_else port (str INSTANCE_UNKNOWN))))
                      <$> o !! "port_path_or_id").
  { unfold o1. destruct (o !! "port_path_or_id") eqn:Hp; cbn.
    - apply lookup_insert_eq.
    - exact Hp. }
  assert (Hother : k ≠ "host" → k ≠ "port_path_or_id" → o1 !! k = o !! k).
  { intros ? ?. unfold o1. destruct (o !! "port_path_or_id"); [|reflexivity].
    apply lookup_insert_ne. congruence. }
  clearbody o1.
  destruct (o1 !! "host") as [h|] eqn:Hh.
  - assert (Hget : get "host" o1 = h) by (unfold get; rewrite Hh; reflexivity).
    rewrite Hget. rewrite <- Hhost. cbn [fmap option_fmap option_map].
    set (o2 := if truthy h && isLocalhost h
               then <["host" := getHostnameSafe c]> o1 else o1).
    assert (Hget2 : get "host" o2
                    = if truthy h && isLocalhost h
                      then getHostnameSafe c else h).
    { unfold o2. destruct (truthy h && isLocalhost h).
      - apply get_insert_eq.
      - exact Hget. }
    assert (Hrest : ∀ j, j ≠ "host" → o2 !! j = o1 !! j).
    { intros j Hj. unfold o2. destruct (truthy h && isLocalhost h);
        [|reflexivity]. apply lookup_insert_ne. congruence. }
    assert (Hhost2 : o2 !! "host" = Some (get "host" o2)).
    { unfold o2, get. destruct (truthy h && isLocalhost h).
      - rewrite lookup_insert_eq. reflexivity.
      - rewrite Hh. reflexivity. }
    clearbody o2. rewrite Hget2 in *.
    destruct (decide (k = "host")) as [->|Hk].
    + destruct (_ || _).
      * rewrite lookup_insert_eq. reflexivity.
      * exact Hhost2.
    + assert (Hk2 : (if negb (truthy (if truthy h && isLocalhost h
                                      then getHostnameSafe c else h))
                        || bool_decide
                             ((if truthy h && isLocalhost h
                               then getHostnameSafe c else h)
                              = str "UNKNOWN_BOX")
                     then <["host" := str INSTANCE_UNKNOWN]> o2 else o2) !! k
                    = o1 !! k).
      { destruct (_ || _).
        - rewrite lookup_insert_ne by congruence. apply Hrest, Hk.
        - apply Hrest, Hk. }
      rewrite Hk2. destruct (decide (k = "port_path_or_id")) as [->|Hp].
      * exact Hport.
      * apply Hother; assumption.
  - rewrite <- Hhost. cbn [fmap option_fmap option_map].
    destruct (decide (k = "host")) as [->|Hk]; [exact Hh|].
    destruct (decide (k = "port_path_or_id")) as [->|Hp].
    + exact Hport.
    + apply Hother; assumption.
Qed.

(** The normalisation, property by property. *)
Lemma _normalizeParameters_lookup (c : Config) (ds : Value)
    (parameters : option Object) (k : string) :
  _normalizeParameters isLocalhost c ds parameters !! k =
  let o := default ∅ parameters in
  if decide (k = "host") then
    if instance_reporting_enabled c
    then normal_host isLocalhost c <$> o !! "host" else None
  else if decide (k = "port_path_or_id") then
    if instance_reporting_enabled c
    then normal_port <$> o !! "port_path_or_id" else None
  else if decide (k = "database_name") then
    if database_name_reporting_enabled c
    then normal_database_name <$> o !! "database_name" else None
  else if decide (k = "product") then Some (or_else (get "product" o) ds)
  else o !! k.
Proof.
  unfold _normalizeParameters. cbv zeta.
  set (o := default ∅ parameters).
  set (o1 := <["product" := or_else (get "product" o) ds]> o).
  assert (Hdb : ∀ j, j ≠ "database_name" →
            _normalizeDatabaseName c o1 !! j = o1 !! j).
  { intros j Hj. rewrite _normalizeDatabaseName_lookup.
    rewrite decide_False by exact Hj. reflexivity. }
  rewrite _normalizeInstanceInformation_lookup.
  rewrite !Hdb by discriminate.
  unfold o1 at 1 2. rewrite !lookup_insert_ne by discriminate.
  destruct (decide (k = "host")) as [->|Hh]; [reflexivity|].
  destruct (decide (k = "port_path_or_id")) as [->|Hp]; [reflexivity|].
  rewrite _normalizeDatabaseName_lookup.
  destruct (decide (k = "database_name")) as [->|Hd].
  - unfold o1. rewrite lookup_insert_ne by discriminate. reflexivity.
  - unfold o1. rewrite lookup_insert.
    destruct (decide (k = "product")) as [->|Hpr].
    + rewrite decide_True by reflexivity. reflexivity.
    + rewrite decide_False by congruence. reflexivity.
Qed.


Lemma _normalizeParameters_port (c : Config) (ds : Value)
    (parameters : option Object) :
  _normalizeParameters isLocalhost c ds parameters !! "port_path_or_id" =
  if instance_reporting_enabled c
  then normal_port <$> default ∅ parameters !! "port_path_or_id"
  else None.
Proof. rewrite _normalizeParameters_lookup. reflexivity. Qed.

Lemma _normalizeParameters_database_name (c : Config) (ds : Value)
    (parameters : option Object) :
  _normalizeParameters isLocalhost c ds parameters !! "database_name" =
  if database_name_reporting_enabled c
  then normal_database_name <$> default ∅ parameters !! "database_name"
  else None.
Proof. rewrite _normalizeParameters_lookup. reflexivity. Qed.


End datastore_parameters.

Section datastore_normal_form.
Import Datastore.
Context `{Platform}.
Variable isLocalhost : Value → bool.










End datastore_normal_form.

Section datastore_examples.
Import Datastore.

Example normalize_redis :
  @_normalizeParameters test_platform test_isLocalhost test_config
    (str "Redis")
    (Some (list_to_map
             [ ("host", str "localhost");
               ("port_path_or_id", number (Fin 6379));
               ("database_name", number (Fin 0));
               ("collection", str "users") ]))
  = list_to_map
      [ ("product", str "Redis");
        ("host", str "box-1");
        ("port_path_or_id", str "6379");
        ("database_name", str "0");
        ("collection", str "users") ].
Proof. vm_compute. reflexivity. Qed.

Example normalize_reporting_disabled :
  @_normalizeParameters test_platform test_isLocalhost
    {| database_name_reporting_enabled := false;
       instance_reporting_enabled := false;
       getHostnameSafe := str "box-1" |}
    (str "Redis")
    (Some (list_to_map
             [ ("host", str "localhost");
               ("port_path_or_id", number (Fin 6379));
               ("database_name", number (Fin 0)) ]))
  = list_to_map [ ("product", str "Redis") ].
Proof. vm_compute. reflexivity. Qed.



End datastore_examples.

Section datastore_numbers.
Import Datastore.
Context `{Platform}.
Variable isLocalhost : Value → bool.

(** X15: zero is a database but not a port. With both kinds of reporting
    enabled, a [database_name] that is a number is reported as that number
    written out, zero and NaN included, whereas a [port_path_or_id] that is
    the number zero or NaN is reported as [unknown]. *)
Theorem zero_database_and_zero_port
    (c : Config) (ds : Value) (o : Object) (database port : Number) :
  database_name_reporting_enabled c = true →
  instance_reporting_enabled c = true →
  o !! "database_name" = Some (number database) →
  o !! "port_path_or_id" = Some (number port) →
  let r := _normalizeParameters isLocalhost c ds (Some o) in
  r !! "database_name" = Some (str (Number_toString database)) ∧
  r !! "port_path_or_id" =
    Some (str (if truthy (number port)
               then Number_toString port else "unknown")).
Proof.
  intros Hdb Hinst Hd Hp. cbv zeta.
  rewrite _normalizeParameters_database_name, _normalizeParameters_port.
  rewrite Hdb, Hinst. cbn [default]. unfold id. rewrite Hd, Hp.
  cbn [fmap option_fmap option_map].
  unfold normal_database_name, normal_port, or_else.
  rewrite bool_decide_eq_false_2 by discriminate. cbn [is_number String_of].
  split; [reflexivity|].
  destruct (truthy (number port)); reflexivity.
Qed.

End datastore_numbers.

Section datastore_numbers_witness.
Import Datastore.

Lemma zero_database_and_zero_port_witness :
  let r :=
    @_normalizeParameters test_platform test_isLocalhost test_config
      (str "Redis")
      (Some (list_to_map
               [ ("port_path_or_id", number (Fin 0));
                 ("database_name", number (Fin 0)) ])) in
  r !! "database_name" = Some (str "0") ∧
  r !! "port_path_or_id" = Some (str "unknown").
Proof.
  apply (@zero_database_and_zero_port test_platform test_isLocalhost
           test_config (str "Redis") _ (Fin 0) (Fin 0));
    reflexivity.
Defined.

End datastore_numbers_witness.
